(** * Three.js view of ext-apps: streaming tool input, visibility-aware
    animation controller, scene effect and fullscreen toggle

  A shallow embedding of
    - examples/threejs-server/src/mcp-app-wrapper.tsx  (module [Wrapper])
    - examples/threejs-server/src/threejs-app.tsx      (modules [Anim], [ThreeJS])
  followed by the properties of the specification that concern them.

  Conventions of the embedding.
    - [null] and [undefined] of a nullable value are [None].
    - JavaScript numbers that the code handles (heights, frame handles)
      are integral and modelled in [Z].
    - Mutable closure variables and React state are threaded explicitly:
      an operation takes the state before and returns the state after.
    - The browser primitives [requestAnimationFrame] and
      [cancelAnimationFrame] act on a [Browser] record that logs the calls
      made to them. *)

From Stdlib Require Import ZArith String List Bool Lia.
From stdpp Require Import base option list strings gmap.

Local Open Scope string_scope.
Local Open Scope Z_scope.

(* ===================================================================== *)
(** ** The animation controller (threejs-app.tsx, createAnimationController) *)
(* ===================================================================== *)

Module Anim.
Section Controller.

(** [FrameRequestCallback]: function objects, opaque to the controller. *)
Variable Callback : Type.

(** The frame-scheduling primitive of the browser, as far as the
    controller can observe it: [requestAnimationFrame] returns a fresh
    handle (the previous handle plus one, as the HTML standard has it)
    and the callback joins the list of requested frames;
    [cancelAnimationFrame] records the handle it is given. *)
Record Browser : Type := mkBrowser {
  lastHandle : Z;
  rafLog : list (Z * Callback);
  cancelLog : list Z
}.

Definition requestAnimationFrame (cb : Callback) (w : Browser) : Z * Browser :=
  let id := lastHandle w + 1 in
  (id, {| lastHandle := id;
          rafLog := rafLog w ++ [(id, cb)];
          cancelLog := cancelLog w |}).

Definition cancelAnimationFrame (id : Z) (w : Browser) : Browser :=
  {| lastHandle := lastHandle w;
     rafLog := rafLog w;
     cancelLog := cancelLog w ++ [id] |}.

(** The three [let] variables captured by the closures of
    [createAnimationController]. *)
Record Controller : Type := mkController {
  isVisible : bool;
  pendingCallbacks : list Callback;
  rafIds : list Z
}.

Definition createAnimationController : Controller :=
  {| isVisible := true; pendingCallbacks := []; rafIds := [] |}.

(** [visibilityAwareRAF(callback)]: returns the handle, or [-1] when the
    callback was queued. *)
Definition visibilityAwareRAF (callback : Callback)
    (c : Controller) (w : Browser) : Z * Controller * Browser :=
  if isVisible c then
    let '(id, w') := requestAnimationFrame callback w in
    (id,
     {| isVisible := isVisible c;
        pendingCallbacks := pendingCallbacks c;
        rafIds := rafIds c ++ [id] |},
     w')
  else
    (-1,
     {| isVisible := isVisible c;
        pendingCallbacks := pendingCallbacks c ++ [callback];
        rafIds := rafIds c |},
     w).

(** [callbacks.forEach((cb) => visibilityAwareRAF(cb))]: left to right,
    each return value dropped. *)
Fixpoint forEach_RAF (callbacks : list Callback)
    (c : Controller) (w : Browser) : Controller * Browser :=
  match callbacks with
  | [] => (c, w)
  | cb :: rest =>
      let '(_, c', w') := visibilityAwareRAF cb c w in
      forEach_RAF rest c' w'
  end.

(** [setVisible(visible)]. *)
Definition setVisible (visible : bool)
    (c : Controller) (w : Browser) : Controller * Browser :=
  let c1 := {| isVisible := visible;
               pendingCallbacks := pendingCallbacks c;
               rafIds := rafIds c |} in
  if visible && (0 <? Z.of_nat (length (pendingCallbacks c1))) then
    let callbacks := pendingCallbacks c1 in
    let c2 := {| isVisible := isVisible c1;
                 pendingCallbacks := [];
                 rafIds := rafIds c1 |} in
    forEach_RAF callbacks c2 w
  else (c1, w).

(** [rafIds.forEach((id) => cancelAnimationFrame(id))]. *)
Fixpoint forEach_cancel (ids : list Z) (w : Browser) : Browser :=
  match ids with
  | [] => w
  | id :: rest => forEach_cancel rest (cancelAnimationFrame id w)
  end.

(** [cleanup()]. *)
Definition cleanup (c : Controller) (w : Browser) : Controller * Browser :=
  let w' := forEach_cancel (rafIds c) w in
  ({| isVisible := isVisible c; pendingCallbacks := []; rafIds := [] |}, w').

(** The calls a client can make on the object returned by
    [createAnimationController], and a run of a sequence of them. *)
Inductive Op : Type :=
| Schedule (cb : Callback)
| SetVisible (visible : bool)
| Cleanup.

Definition step (cw : Controller * Browser) (op : Op) : Controller * Browser :=
  match op with
  | Schedule cb =>
      let '(_, c', w') := visibilityAwareRAF cb (fst cw) (snd cw) in (c', w')
  | SetVisible v => setVisible v (fst cw) (snd cw)
  | Cleanup => cleanup (fst cw) (snd cw)
  end.

Definition run (ops : list Op) (cw : Controller * Browser) : Controller * Browser :=
  fold_left step ops cw.

(** What a sequence of calls asked for, read off the calls alone. *)
Definition is_cleanup (op : Op) : bool :=
  match op with Cleanup => true | _ => false end.

Definition scheduled (ops : list Op) : list Callback :=
  flat_map (fun op => match op with Schedule cb => [cb] | _ => [] end) ops.

(** Callbacks requested from the primitive, in request order, and the
    handles it gave out. *)
Definition forwarded (w : Browser) : list Callback := map snd (rafLog w).
Definition handles (w : Browser) : list Z := map fst (rafLog w).

(** A controller obeys the queue discipline when it holds no pending
    callback while visible. *)
Definition settled (c : Controller) : Prop :=
  isVisible c = true -> pendingCallbacks c = [].

(** A handle is accounted for when the controller still records it or the
    primitive has been asked to cancel it. *)
Definition accounted (c : Controller) (w : Browser) (id : Z) : Prop :=
  In id (rafIds c) \/ In id (cancelLog w).

(** The calls that cannot make a hidden controller visible or clean it up:
    [schedule] and [setVisible(false)]. *)
Definition keepsHidden (op : Op) : bool :=
  match op with
  | Schedule _ => true
  | SetVisible v => negb v
  | Cleanup => false
  end.

End Controller.

Arguments mkBrowser {Callback} _ _ _.
Arguments lastHandle {Callback} _.
Arguments rafLog {Callback} _.
Arguments cancelLog {Callback} _.
Arguments requestAnimationFrame {Callback} _ _.
Arguments cancelAnimationFrame {Callback} _ _.
Arguments mkController {Callback} _ _ _.
Arguments isVisible {Callback} _.
Arguments pendingCallbacks {Callback} _.
Arguments rafIds {Callback} _.
Arguments createAnimationController {Callback}.
Arguments visibilityAwareRAF {Callback} _ _ _.
Arguments forEach_RAF {Callback} _ _ _.
Arguments setVisible {Callback} _ _ _.
Arguments forEach_cancel {Callback} _ _.
Arguments cleanup {Callback} _ _.
Arguments Schedule {Callback} _.
Arguments SetVisible {Callback} _.
Arguments Cleanup {Callback}.
Arguments step {Callback} _ _.
Arguments run {Callback} _ _.
Arguments is_cleanup {Callback} _.
Arguments scheduled {Callback} _.
Arguments forwarded {Callback} _.
Arguments handles {Callback} _.
Arguments settled {Callback} _.
Arguments accounted {Callback} _ _ _.
Arguments keepsHidden {Callback} _.

End Anim.

(* ===================================================================== *)
(** ** JavaScript values carried by the host context *)
(* ===================================================================== *)

(** The host context ([McpUiHostContext]) is a plain object whose type is
    declared by the SDK; the code reads a few of its properties and merges
    it by object spread. It is modelled as a finite map from property names
    to values. The type is nested through [list]; no induction over values
    is needed, so no elimination scheme is generated for it. *)
Unset Elimination Schemes.
Inductive JsValue : Type :=
| JUndefined
| JNull
| JBool (b : bool)
| JNum (n : Z)
| JStr (s : string)
| JArr (items : list JsValue)
| JObj (fields : list (string * JsValue)).
Set Elimination Schemes.

Abbreviation HostContext := (gmap string JsValue).

(** [{ ...o }] for a nullable object: spreading [null] or [undefined] adds
    no property. *)
Definition spread (o : option HostContext) : HostContext :=
  match o with
  | Some m => m
  | None => ∅
  end.

(* ===================================================================== *)
(** ** Props of the view component (mcp-app-wrapper.tsx, ViewProps) *)
(* ===================================================================== *)

Module Props.

Record ViewProps (App TToolInput CallToolResult : Type) : Type := mkViewProps {
  app : App;
  toolInputs : option TToolInput;
  toolInputsPartial : option TToolInput;
  toolResult : option CallToolResult;
  hostContext : option HostContext
}.

Arguments mkViewProps {App TToolInput CallToolResult} _ _ _ _ _.
Arguments app {App TToolInput CallToolResult} _.
Arguments toolInputs {App TToolInput CallToolResult} _.
Arguments toolInputsPartial {App TToolInput CallToolResult} _.
Arguments toolResult {App TToolInput CallToolResult} _.
Arguments hostContext {App TToolInput CallToolResult} _.

End Props.

(* ===================================================================== *)
(** ** The wrapper (mcp-app-wrapper.tsx, McpAppWrapper) *)
(* ===================================================================== *)

Module Wrapper.
Section Wrapper.

(** The connected [App] of the SDK, the tool input (an object,
    [Record<string, unknown>]) and the tool result are opaque to the
    wrapper. *)
Variables App TToolInput CallToolResult : Type.

(** A JavaScript [Error], of which only [message] is read. *)
Record Error : Type := mkError { message : string }.

(** The four [useState] cells. *)
Record State : Type := mkState {
  toolInputs : option TToolInput;
  toolInputsPartial : option TToolInput;
  toolResult : option CallToolResult;
  hostContext : option HostContext
}.

(** The initial values given to [useState]. *)
Definition initial : State :=
  {| toolInputs := None; toolInputsPartial := None;
     toolResult := None; hostContext := None |}.

(** [app.ontoolinput]: [setToolInputs(params.arguments as Record<string,
    unknown>); setToolInputsPartial(null)]. The cast asserts an object but
    checks nothing: a notification that carries no [arguments] stores
    [undefined], which is [None] here as [null] is. *)
Definition ontoolinput (arguments : option TToolInput) (s : State) : State :=
  {| toolInputs := arguments;
     toolInputsPartial := None;
     toolResult := toolResult s;
     hostContext := hostContext s |}.

(** [app.ontoolinputpartial]: [setToolInputsPartial(params.arguments as
    Record<string, unknown>)], with the same unchecked cast. *)
Definition ontoolinputpartial (arguments : option TToolInput) (s : State) : State :=
  {| toolInputs := toolInputs s;
     toolInputsPartial := arguments;
     toolResult := toolResult s;
     hostContext := hostContext s |}.

(** [app.ontoolresult]: [setToolResult(params)]. *)
Definition ontoolresult (params : CallToolResult) (s : State) : State :=
  {| toolInputs := toolInputs s;
     toolInputsPartial := toolInputsPartial s;
     toolResult := Some params;
     hostContext := hostContext s |}.

(** [app.onhostcontextchanged]:
    [setHostContext((prev) => ({ ...prev, ...params }))]. Of two spreads the
    later one wins on a common property: the union is biased to [params]. *)
Definition onhostcontextchanged (params : HostContext) (s : State) : State :=
  {| toolInputs := toolInputs s;
     toolInputsPartial := toolInputsPartial s;
     toolResult := toolResult s;
     hostContext := Some (params ∪ spread (hostContext s)) |}.

(** The effect that runs once the app is connected:
    [const ctx = app.getHostContext(); if (ctx) setHostContext(ctx)]. *)
Definition onConnected (ctx : option HostContext) (s : State) : State :=
  match ctx with
  | Some c =>
      {| toolInputs := toolInputs s;
         toolInputsPartial := toolInputsPartial s;
         toolResult := toolResult s;
         hostContext := Some c |}
  | None => s
  end.

(** What the host can make happen to the wrapper. A tool-input event,
    complete or partial, carries [params.arguments] or lacks it. *)
Inductive Event : Type :=
| ToolInput (arguments : option TToolInput)
| ToolInputPartial (arguments : option TToolInput)
| ToolResult (params : CallToolResult)
| HostContextChanged (params : HostContext)
| Connected (ctx : option HostContext).

Definition handle (s : State) (e : Event) : State :=
  match e with
  | ToolInput a => ontoolinput a s
  | ToolInputPartial a => ontoolinputpartial a s
  | ToolResult r => ontoolresult r s
  | HostContextChanged p => onhostcontextchanged p s
  | Connected ctx => onConnected ctx s
  end.

Definition run (events : list Event) (s : State) : State :=
  fold_left handle events s.

Definition is_complete (e : Event) : bool :=
  match e with ToolInput _ => true | _ => false end.

(** What the latest complete event carried, among a complete event that
    carried [a] followed by the complete events of [later]. *)
Definition lastComplete (a : option TToolInput) (later : list Event)
    : option TToolInput :=
  fold_left (fun acc e => match e with ToolInput b => b | _ => acc end) later a.

(** A complete event that carries arguments, or any other event. *)
Definition carriesArguments (e : Event) : bool :=
  match e with ToolInput None => false | _ => true end.

(** What the wrapper returns from its render. *)
Inductive Rendered : Type :=
| ErrorDiv (text : string)           (* <div className="error">…</div> *)
| LoadingDiv                         (* <div className="loading">Connecting...</div> *)
| View (props : Props.ViewProps App TToolInput CallToolResult).  (* <ThreeJSApp … /> *)

(** The return statements of [McpAppWrapper], given what [useApp]
    returned. An [Error] object is truthy whatever its message. *)
Definition McpAppWrapper (app : option App) (error : option Error)
    (s : State) : Rendered :=
  match error with
  | Some e => ErrorDiv ("Error: " ++ message e)
  | None =>
      match app with
      | None => LoadingDiv
      | Some a =>
          View {| Props.app := a;
                  Props.toolInputs := toolInputs s;
                  Props.toolInputsPartial := toolInputsPartial s;
                  Props.toolResult := toolResult s;
                  Props.hostContext := hostContext s |}
      end
  end.

Definition is_view (r : Rendered) : bool :=
  match r with View _ => true | _ => false end.

(** The arguments of the partial events of a stream, and the results of
    its tool-result events, in order of arrival. *)
Definition partialArguments (events : list Event) : list (option TToolInput) :=
  flat_map (fun e => match e with ToolInputPartial a => [a] | _ => [] end) events.

Definition results (events : list Event) : list CallToolResult :=
  flat_map (fun e => match e with ToolResult r => [r] | _ => [] end) events.

Definition is_result (e : Event) : bool :=
  match e with ToolResult _ => true | _ => false end.

Definition is_connected (e : Event) : bool :=
  match e with Connected _ => true | _ => false end.

End Wrapper.

Arguments mkState {TToolInput CallToolResult} _ _ _ _.
Arguments toolInputs {TToolInput CallToolResult} _.
Arguments toolInputsPartial {TToolInput CallToolResult} _.
Arguments toolResult {TToolInput CallToolResult} _.
Arguments hostContext {TToolInput CallToolResult} _.
Arguments initial {TToolInput CallToolResult}.
Arguments ontoolinput {TToolInput CallToolResult} _ _.
Arguments ontoolinputpartial {TToolInput CallToolResult} _ _.
Arguments ontoolresult {TToolInput CallToolResult} _ _.
Arguments onhostcontextchanged {TToolInput CallToolResult} _ _.
Arguments onConnected {TToolInput CallToolResult} _ _.
Arguments ToolInput {TToolInput CallToolResult} _.
Arguments ToolInputPartial {TToolInput CallToolResult} _.
Arguments ToolResult {TToolInput CallToolResult} _.
Arguments HostContextChanged {TToolInput CallToolResult} _.
Arguments Connected {TToolInput CallToolResult} _.
Arguments handle {TToolInput CallToolResult} _ _.
Arguments run {TToolInput CallToolResult} _ _.
Arguments is_complete {TToolInput CallToolResult} _.
Arguments lastComplete {TToolInput CallToolResult} _ _.
Arguments carriesArguments {TToolInput CallToolResult} _.
Arguments partialArguments {TToolInput CallToolResult} _.
Arguments results {TToolInput CallToolResult} _.
Arguments is_result {TToolInput CallToolResult} _.
Arguments is_connected {TToolInput CallToolResult} _.
Arguments ErrorDiv {App TToolInput CallToolResult} _.
Arguments LoadingDiv {App TToolInput CallToolResult}.
Arguments View {App TToolInput CallToolResult} _.
Arguments McpAppWrapper {App TToolInput CallToolResult} _ _ _.
Arguments is_view {App TToolInput CallToolResult} _.

End Wrapper.

(* ===================================================================== *)
(** ** The view component (threejs-app.tsx, ThreeJSApp) *)
(* ===================================================================== *)

Module ThreeJS.

(** [interface ThreeJSToolInput { code?: string; height?: number }]. *)
Record ThreeJSToolInput : Type := mkInput {
  code : option string;
  height : option Z
}.

Definition DEFAULT_THREEJS_CODE : string :=
"const scene = new THREE.Scene();
const camera = new THREE.PerspectiveCamera(75, width / height, 0.1, 1000);
const renderer = new THREE.WebGLRenderer({ canvas, antialias: true, alpha: true });
renderer.setSize(width, height);
// Transparent background - scene composites over host UI
renderer.setClearColor(0x000000, 0);

const cube = new THREE.Mesh(
  new THREE.BoxGeometry(1, 1, 1),
  new THREE.MeshStandardMaterial({ color: 0x00ff88 })
);
// Start with an isometric-ish rotation to show 3 faces
cube.rotation.x = 0.5;
cube.rotation.y = 0.7;
scene.add(cube);

// Better lighting: key light + fill light + ambient
const keyLight = new THREE.DirectionalLight(0xffffff, 1.2);
keyLight.position.set(1, 1, 2);
scene.add(keyLight);
const fillLight = new THREE.DirectionalLight(0x8888ff, 0.4);
fillLight.position.set(-1, 0, -1);
scene.add(fillLight);
scene.add(new THREE.AmbientLight(0x404040, 0.5));

camera.position.z = 3;

function animate() {
  requestAnimationFrame(animate);
  cube.rotation.x += 0.01;
  cube.rotation.y += 0.01;
  renderer.render(scene, camera);
}
animate();".

(** Truthiness of a JavaScript string: every string but the empty one. *)
Definition truthy (s : string) : bool :=
  match s with
  | EmptyString => false
  | String _ _ => true
  end.

(** [o?.k] on the host context and on one of its values. The SDK types
    [displayMode] as a string, [availableDisplayModes] as an array of
    strings and [safeAreaInsets] as an object of four numbers. *)
Definition contextProp (hc : option HostContext) (k : string) : JsValue :=
  match hc with
  | Some m => match m !! k with Some v => v | None => JUndefined end
  | None => JUndefined
  end.

Fixpoint fieldOf (k : string) (fields : list (string * JsValue)) : JsValue :=
  match fields with
  | [] => JUndefined
  | (k', v) :: rest => if String.eqb k k' then v else fieldOf k rest
  end.

Definition valueProp (v : JsValue) (k : string) : JsValue :=
  match v with
  | JObj fields => fieldOf k fields
  | _ => JUndefined
  end.

(** [hostContext?.displayMode], when it is a string. *)
Definition displayModeOf (hc : option HostContext) : option string :=
  match contextProp hc "displayMode" with
  | JStr m => Some m
  | _ => None
  end.

(** [arr.includes("fullscreen")]. *)
Definition includes_fullscreen (items : list JsValue) : bool :=
  existsb (fun v => match v with JStr m => String.eqb m "fullscreen" | _ => false end)
          items.

(** The value a rejected [executeThreeCode] promise carries: an [Error]
    with its message, or anything else that was thrown. *)
Inductive Thrown : Type :=
| ThrownError (message : string)
| ThrownOther.

(** The outcome of [await app.requestDisplayMode({ mode })]. *)
Inductive DisplayModeResponse : Type :=
| Resolved (mode : string)
| Rejected.

(** What [LoadingShimmer] shows: the box of the given height and, when
    [code] is a non-empty string, the [<pre>] with it. *)
Record Shimmer : Type := mkShimmer {
  shimmerHeight : Z;
  shimmerPre : option string
}.

Definition LoadingShimmer (h : Z) (c : option string) : Shimmer :=
  {| shimmerHeight := h;
     shimmerPre := match c with
                   | Some text => if truthy text then Some text else None
                   | None => None
                   end |}.

Record ContainerStyle : Type := mkStyle {
  paddingTop : JsValue;
  paddingRight : JsValue;
  paddingBottom : JsValue;
  paddingLeft : JsValue
}.

(** The second [return] of [ThreeJSApp]: container, canvas, optional error
    overlay and fullscreen button. *)
Record Scene : Type := mkScene {
  className : string;
  canvasHeight : Z;
  errorOverlay : option string;
  buttonClassName : string;
  buttonTitle : string
}.

Inductive Rendered : Type :=
| Streaming (style : ContainerStyle) (shimmer : Shimmer)
| Canvas (style : ContainerStyle) (scene : Scene).

Section Component.

Variables App CallToolResult Callback : Type.

(** [type ThreeJSAppProps = ViewProps<ThreeJSToolInput>]. *)
Definition ThreeJSAppProps : Type := Props.ViewProps App ThreeJSToolInput CallToolResult.

(** The component's [useState] cells and [animControllerRef], with what
    React remembers of the two effects whose dependencies come from props:
    the dependencies of their last run and whether the scene effect
    returned a cleanup function. A controller lives as long as something
    refers to it: [animControllerRef] holds the one the ref points to, and
    [earlierControllers] the ones created for earlier scenes, in order of
    creation, which the ref has left but which the code of those scenes
    still holds through the [visibilityAwareRAF] it was given. *)
Record State : Type := mkState {
  error : option string;
  currentDisplayMode : string;
  animControllerRef : option (Anim.Controller Callback);
  displayModeDeps : option (option string);
  sceneDeps : option (string * Z);
  sceneCleanup : bool;
  earlierControllers : list (Anim.Controller Callback)
}.

Definition initial : State :=
  {| error := None;
     currentDisplayMode := "inline";
     animControllerRef := None;
     displayModeDeps := None;
     sceneDeps := None;
     sceneCleanup := false;
     earlierControllers := [] |}.

(** [const height = toolInputs?.height ?? toolInputsPartial?.height ?? 400]. *)
Definition heightOf (p : ThreeJSAppProps) : Z :=
  match Props.toolInputs p ≫= height with
  | Some h => h
  | None =>
      match Props.toolInputsPartial p ≫= height with
      | Some h => h
      | None => 400
      end
  end.

(** [const code = toolInputs?.code || DEFAULT_THREEJS_CODE]. *)
Definition codeOf (p : ThreeJSAppProps) : string :=
  match Props.toolInputs p ≫= code with
  | Some c => if truthy c then c else DEFAULT_THREEJS_CODE
  | None => DEFAULT_THREEJS_CODE
  end.

(** [const partialCode = toolInputsPartial?.code]. *)
Definition partialCode (p : ThreeJSAppProps) : option string :=
  Props.toolInputsPartial p ≫= code.

(** [const isStreaming = !toolInputs && !!toolInputsPartial]. *)
Definition isStreaming (p : ThreeJSAppProps) : bool :=
  match Props.toolInputs p, Props.toolInputsPartial p with
  | None, Some _ => true
  | _, _ => false
  end.

Definition containerStyle (p : ThreeJSAppProps) : ContainerStyle :=
  let safeAreaInsets := contextProp (Props.hostContext p) "safeAreaInsets" in
  {| paddingTop := valueProp safeAreaInsets "top";
     paddingRight := valueProp safeAreaInsets "right";
     paddingBottom := valueProp safeAreaInsets "bottom";
     paddingLeft := valueProp safeAreaInsets "left" |}.

(** [hostContext?.availableDisplayModes?.includes("fullscreen") ?? false]. *)
Definition canFullscreen (p : ThreeJSAppProps) : bool :=
  match contextProp (Props.hostContext p) "availableDisplayModes" with
  | JArr items => includes_fullscreen items
  | _ => false
  end.

Definition isFullscreen (st : State) : bool :=
  String.eqb (currentDisplayMode st) "fullscreen".

(** The two [return] statements of [ThreeJSApp]. *)
Definition ThreeJSApp (p : ThreeJSAppProps) (st : State) : Rendered :=
  if isStreaming p || negb (truthy (codeOf p)) then
    Streaming (containerStyle p) (LoadingShimmer (heightOf p) (partialCode p))
  else
    Canvas (containerStyle p)
      {| className := "threejs-container" ++ (if isFullscreen st then " fullscreen" else "");
         canvasHeight := heightOf p;
         errorOverlay := match error st with
                         | Some e => if truthy e then Some ("Error: " ++ e) else None
                         | None => None
                         end;
         buttonClassName := "fullscreen-btn" ++ (if canFullscreen p then " available" else "");
         buttonTitle := if isFullscreen st then "Exit fullscreen" else "Toggle fullscreen" |}.

(** [canvasRef.current] and [containerRef.current] are set exactly when the
    committed render is the one with the canvas. *)
Definition refsAttached (r : Rendered) : bool :=
  match r with
  | Canvas _ _ => true
  | Streaming _ _ => false
  end.

(** The effect "Sync display mode from host context". *)
Definition syncDisplayMode (p : ThreeJSAppProps) (st : State) : State :=
  let st' := {| error := error st;
                currentDisplayMode := currentDisplayMode st;
                animControllerRef := animControllerRef st;
                displayModeDeps := Some (displayModeOf (Props.hostContext p));
                sceneDeps := sceneDeps st;
                sceneCleanup := sceneCleanup st;
                earlierControllers := earlierControllers st |} in
  match displayModeOf (Props.hostContext p) with
  | Some m =>
      if String.eqb m "inline" || String.eqb m "fullscreen" then
        {| error := error st';
           currentDisplayMode := m;
           animControllerRef := animControllerRef st';
           displayModeDeps := displayModeDeps st';
           sceneDeps := sceneDeps st';
           sceneCleanup := sceneCleanup st';
           earlierControllers := earlierControllers st' |}
      else st'
  | None => st'
  end.

(** [animControllerRef.current?.cleanup()]: the cleanup function the scene
    effect returns, also its first statement after the guard. *)
Definition cleanupCurrent (st : State) (w : Anim.Browser Callback)
    : State * Anim.Browser Callback :=
  match animControllerRef st with
  | Some c =>
      let '(c', w') := Anim.cleanup c w in
      ({| error := error st;
          currentDisplayMode := currentDisplayMode st;
          animControllerRef := Some c';
          displayModeDeps := displayModeDeps st;
          sceneDeps := sceneDeps st;
          sceneCleanup := sceneCleanup st;
          earlierControllers := earlierControllers st |}, w')
  | None => (st, w)
  end.

(** [executeThreeCode(code, canvas, width, height, visibilityAwareRAF)], as
    far as it runs inside the effect. The function built from [code] is
    called at once and runs to its first [await]; of what it does the model
    keeps the callbacks it passes to the [requestAnimationFrame] it was
    given, in order ([requested]), each a call of [visibilityAwareRAF] on
    the scene's controller. What the code does later arrives as
    [sceneRAF]; a failure, also a synchronous one (an [async] function
    turns it into a rejection), arrives as [sceneRejected]. *)
Definition executeThreeCode (requested : list Callback)
    (c : Anim.Controller Callback) (w : Anim.Browser Callback)
    : Anim.Controller Callback * Anim.Browser Callback :=
  Anim.forEach_RAF requested c w.

(** [animControllerRef.current = createAnimationController()]: the ref
    leaves the controller it pointed to, which stays with its scene. *)
Definition leftByRef (st : State) : list (Anim.Controller Callback) :=
  match animControllerRef st with
  | Some old => earlierControllers st ++ [old]
  | None => earlierControllers st
  end.

(** The body of the scene effect, run for dependencies [(c, h)] with the
    refs as the committed render left them, when the code [c] requests
    [requested] before its first [await]. *)
Definition sceneEffect (c : string) (h : Z) (canvasRef containerRef : bool)
    (requested : list Callback)
    (st : State) (w : Anim.Browser Callback) : State * Anim.Browser Callback :=
  if negb (truthy c) || negb canvasRef || negb containerRef then
    ({| error := error st;
        currentDisplayMode := currentDisplayMode st;
        animControllerRef := animControllerRef st;
        displayModeDeps := displayModeDeps st;
        sceneDeps := Some (c, h);
        sceneCleanup := false;
        earlierControllers := earlierControllers st |}, w)
  else
    let '(st1, w1) := cleanupCurrent st w in
    let '(controller, w2) :=
      executeThreeCode requested Anim.createAnimationController w1 in
    ({| error := None;
        currentDisplayMode := currentDisplayMode st1;
        animControllerRef := Some controller;
        displayModeDeps := displayModeDeps st1;
        sceneDeps := Some (c, h);
        sceneCleanup := true;
        earlierControllers := leftByRef st1 |}, w2).

(** React commits a render with props [p]: effects whose dependencies
    changed since their last run (all of them at mount) are re-run, the
    cleanup functions of the previous runs first. [requested] is what the
    code of [p] requests before its first [await], should the scene effect
    execute it. *)
Definition commit (p : ThreeJSAppProps) (requested : list Callback)
    (st : State) (w : Anim.Browser Callback)
    : State * Anim.Browser Callback :=
  let refs := refsAttached (ThreeJSApp p st) in
  let sceneChanged :=
    negb (bool_decide (sceneDeps st = Some (codeOf p, heightOf p))) in
  let modeChanged :=
    negb (bool_decide (displayModeDeps st = Some (displayModeOf (Props.hostContext p)))) in
  let '(st1, w1) :=
    if sceneChanged && sceneCleanup st then cleanupCurrent st w else (st, w) in
  let st2 := if modeChanged then syncDisplayMode p st1 else st1 in
  if sceneChanged then
    sceneEffect (codeOf p) (heightOf p) refs refs requested st2 w1
  else (st2, w1).

(** React unmounts the component: the cleanup functions of the last runs. *)
Definition unmount (st : State) (w : Anim.Browser Callback)
    : State * Anim.Browser Callback :=
  if sceneCleanup st then cleanupCurrent st w else (st, w).

(** The code of a scene calls, after its first [await] or from a frame
    callback, the [requestAnimationFrame] it was given: the
    [visibilityAwareRAF] of the controller created for that scene, whether
    or not the ref still points to it. Scenes are numbered in the order in
    which their controllers were created: the earlier ones first, then the
    one in the ref. *)
Definition sceneRAF (scene : nat) (cb : Callback) (st : State)
    (w : Anim.Browser Callback) : State * Anim.Browser Callback :=
  match earlierControllers st !! scene with
  | Some c =>
      let '(_, c', w') := Anim.visibilityAwareRAF cb c w in
      ({| error := error st;
          currentDisplayMode := currentDisplayMode st;
          animControllerRef := animControllerRef st;
          displayModeDeps := displayModeDeps st;
          sceneDeps := sceneDeps st;
          sceneCleanup := sceneCleanup st;
          earlierControllers := <[scene := c']> (earlierControllers st) |}, w')
  | None =>
      match animControllerRef st with
      | Some c =>
          if Nat.eqb scene (length (earlierControllers st)) then
            let '(_, c', w') := Anim.visibilityAwareRAF cb c w in
            ({| error := error st;
                currentDisplayMode := currentDisplayMode st;
                animControllerRef := Some c';
                displayModeDeps := displayModeDeps st;
                sceneDeps := sceneDeps st;
                sceneCleanup := sceneCleanup st;
                earlierControllers := earlierControllers st |}, w')
          else (st, w)
      | None => (st, w)
      end
  end.

(** The number of the scene whose controller is in the ref. *)
Definition currentScene (st : State) : nat := length (earlierControllers st).

(** The [IntersectionObserver] callback, for one entry:
    [animControllerRef.current?.setVisible(entry.isIntersecting)]. *)
Definition intersection (isIntersecting : bool) (st : State)
    (w : Anim.Browser Callback) : State * Anim.Browser Callback :=
  match animControllerRef st with
  | Some c =>
      let '(c', w') := Anim.setVisible isIntersecting c w in
      ({| error := error st;
          currentDisplayMode := currentDisplayMode st;
          animControllerRef := Some c';
          displayModeDeps := displayModeDeps st;
          sceneDeps := sceneDeps st;
          sceneCleanup := sceneCleanup st;
          earlierControllers := earlierControllers st |}, w')
  | None => (st, w)
  end.

(** [.catch((e) => setError(e instanceof Error ? e.message : "Unknown error"))]. *)
Definition errorText (e : Thrown) : string :=
  match e with
  | ThrownError m => m
  | ThrownOther => "Unknown error"
  end.

Definition sceneRejected (e : Thrown) (st : State) : State :=
  {| error := Some (errorText e);
     currentDisplayMode := currentDisplayMode st;
     animControllerRef := animControllerRef st;
     displayModeDeps := displayModeDeps st;
     sceneDeps := sceneDeps st;
     sceneCleanup := sceneCleanup st;
     earlierControllers := earlierControllers st |}.

(** [toggleFullscreen]. [wasFullscreen] is the [isFullscreen] the callback
    closed over when it was created; the response arrives later, and the
    continuation after [await] acts on the state of that moment, [st]. *)
Definition newMode (wasFullscreen : bool) : string :=
  if wasFullscreen then "inline" else "fullscreen".

Definition toggleFullscreen (wasFullscreen : bool) (response : DisplayModeResponse)
    (st : State) : State :=
  match response with
  | Resolved m =>
      if String.eqb m (newMode wasFullscreen) then
        {| error := error st;
           currentDisplayMode := m;
           animControllerRef := animControllerRef st;
           displayModeDeps := displayModeDeps st;
           sceneDeps := sceneDeps st;
           sceneCleanup := sceneCleanup st;
           earlierControllers := earlierControllers st |}
      else st
  | Rejected => st
  end.

(** What can happen to a mounted component, and a run of such events. *)
Inductive Event : Type :=
| Render (p : ThreeJSAppProps) (requested : list Callback)
| SceneRAF (scene : nat) (cb : Callback)
| Intersection (isIntersecting : bool)
| SceneRejected (e : Thrown)
| ToggleAnswered (wasFullscreen : bool) (response : DisplayModeResponse).

Definition handle (sw : State * Anim.Browser Callback) (ev : Event)
    : State * Anim.Browser Callback :=
  match ev with
  | Render p requested => commit p requested (fst sw) (snd sw)
  | SceneRAF scene cb => sceneRAF scene cb (fst sw) (snd sw)
  | Intersection b => intersection b (fst sw) (snd sw)
  | SceneRejected e => (sceneRejected e (fst sw), snd sw)
  | ToggleAnswered wasFullscreen response =>
      (toggleFullscreen wasFullscreen response (fst sw), snd sw)
  end.

Definition run (evs : list Event) (sw : State * Anim.Browser Callback)
    : State * Anim.Browser Callback :=
  fold_left handle evs sw.

(** The stored display mode is one of the two the component knows. *)
Definition modeKnown (st : State) : Prop :=
  currentDisplayMode st = "inline" \/ currentDisplayMode st = "fullscreen".

(** The effect "Escape key exits fullscreen". Its listener is
    [if (e.key === "Escape" && isFullscreen) toggleFullscreen()]; the effect
    re-registers it whenever [isFullscreen] or [toggleFullscreen] changes,
    so listener and toggle close over the [isFullscreen] of the same
    render. [onKeyDown] tells whether the toggle is called and with which
    captured [isFullscreen]; [keyDownAnswered] is the whole exchange, the
    answer acting on the state [st'] of the moment it arrives. *)
Definition onKeyDown (key : string) (st : State) : option bool :=
  if String.eqb key "Escape" && isFullscreen st then Some (isFullscreen st)
  else None.

Definition keyDownAnswered (key : string) (st : State)
    (response : DisplayModeResponse) (st' : State) : State :=
  match onKeyDown key st with
  | Some wasFullscreen => toggleFullscreen wasFullscreen response st'
  | None => st'
  end.

(** [onClick={toggleFullscreen}] on the button rendered from [st]. *)
Definition clickAnswered (st : State) (response : DisplayModeResponse)
    (st' : State) : State :=
  toggleFullscreen (isFullscreen st) response st'.

(** The whole [IntersectionObserver] callback:
    [entries.forEach((entry) => animControllerRef.current?.setVisible(entry.isIntersecting))]. *)
Definition observerCallback (entries : list bool) (st : State)
    (w : Anim.Browser Callback) : State * Anim.Browser Callback :=
  fold_left (fun sw isIntersecting => intersection isIntersecting (fst sw) (snd sw))
            entries (st, w).

End Component.

Arguments mkState {Callback} _ _ _ _ _ _ _.
Arguments error {Callback} _.
Arguments currentDisplayMode {Callback} _.
Arguments animControllerRef {Callback} _.
Arguments displayModeDeps {Callback} _.
Arguments sceneDeps {Callback} _.
Arguments sceneCleanup {Callback} _.
Arguments earlierControllers {Callback} _.
Arguments initial {Callback}.
Arguments heightOf {App CallToolResult} _.
Arguments codeOf {App CallToolResult} _.
Arguments partialCode {App CallToolResult} _.
Arguments isStreaming {App CallToolResult} _.
Arguments containerStyle {App CallToolResult} _.
Arguments canFullscreen {App CallToolResult} _.
Arguments isFullscreen {Callback} _.
Arguments ThreeJSApp {App CallToolResult Callback} _ _.
Arguments syncDisplayMode {App CallToolResult Callback} _ _.
Arguments cleanupCurrent {Callback} _ _.
Arguments executeThreeCode {Callback} _ _ _.
Arguments leftByRef {Callback} _.
Arguments sceneEffect {Callback} _ _ _ _ _ _ _.
Arguments commit {App CallToolResult Callback} _ _ _ _.
Arguments unmount {Callback} _ _.
Arguments sceneRAF {Callback} _ _ _ _.
Arguments currentScene {Callback} _.
Arguments intersection {Callback} _ _ _.
Arguments sceneRejected {Callback} _ _.
Arguments toggleFullscreen {Callback} _ _ _.
Arguments Render {App CallToolResult Callback} _ _.
Arguments SceneRAF {App CallToolResult Callback} _ _.
Arguments Intersection {App CallToolResult Callback} _.
Arguments SceneRejected {App CallToolResult Callback} _.
Arguments ToggleAnswered {App CallToolResult Callback} _ _.
Arguments handle {App CallToolResult Callback} _ _.
Arguments run {App CallToolResult Callback} _ _.
Arguments modeKnown {Callback} _.
Arguments onKeyDown {Callback} _ _.
Arguments keyDownAnswered {Callback} _ _ _ _.
Arguments clickAnswered {Callback} _ _ _.
Arguments observerCallback {Callback} _ _ _.

(** Sample data for concrete runs: the props the wrapper passes when no
    host context and no tool result are stored, with [unit] for the opaque
    app and result; a browser that has not been asked for a frame yet, with
    callbacks named by strings. *)
Definition propsOf (complete partial : option ThreeJSToolInput)
    : ThreeJSAppProps unit unit :=
  {| Props.app := tt;
     Props.toolInputs := complete;
     Props.toolInputsPartial := partial;
     Props.toolResult := None;
     Props.hostContext := None |}.

Definition emptyBrowser : Anim.Browser string :=
  {| Anim.lastHandle := 0; Anim.rafLog := []; Anim.cancelLog := [] |}.

End ThreeJS.

(* ===================================================================== *)
(** ** Properties of the animation controller *)
(* ===================================================================== *)

Local Open Scope list_scope.

Module AnimFacts.
Import Anim.

Section Facts.

Context {Callback : Type}.
Implicit Types (c : Controller Callback) (w : Browser Callback).
Implicit Types (cb : Callback) (ops : list (Op Callback)).

Lemma combine_snd {A B : Type} (l : list B) :
  forall ids : list A, length ids = length l -> map snd (combine ids l) = l.
Proof.
  induction l as [|x l IH]; intros [|i ids] Hl; try discriminate Hl;
    [reflexivity|].
  cbn. f_equal. apply IH. now injection Hl.
Qed.

Lemma combine_fst {A B : Type} (l : list B) :
  forall ids : list A, length ids = length l -> map fst (combine ids l) = ids.
Proof.
  induction l as [|x l IH]; intros [|i ids] Hl; try discriminate Hl;
    [reflexivity|].
  cbn. f_equal. apply IH. now injection Hl.
Qed.

Lemma forEach_cancel_log (ids : list Z) w :
  forEach_cancel ids w =
  {| lastHandle := lastHandle w; rafLog := rafLog w;
     cancelLog := cancelLog w ++ ids |}.
Proof.
  revert w. induction ids as [|id rest IH]; intros w; simpl.
  - destruct w; simpl. now rewrite app_nil_r.
  - rewrite IH. simpl. now rewrite <- app_assoc.
Qed.

Lemma forEach_RAF_visible (cbs : list Callback) :
  forall c w, isVisible c = true ->
  exists ids,
    length ids = length cbs /\
    forEach_RAF cbs c w =
      ({| isVisible := true; pendingCallbacks := pendingCallbacks c;
          rafIds := rafIds c ++ ids |},
       {| lastHandle := lastHandle w + Z.of_nat (length cbs);
          rafLog := rafLog w ++ combine ids cbs;
          cancelLog := cancelLog w |}).
Proof.
  induction cbs as [|cb rest IH]; intros c w Hv.
  - exists []. split; [reflexivity|]. simpl.
    destruct c, w; simpl in *; subst.
    now rewrite !app_nil_r, Z.add_0_r.
  - simpl. unfold visibilityAwareRAF. rewrite Hv. simpl.
    edestruct IH as (ids & Hlen & ->); [reflexivity|].
    exists ((lastHandle w + 1) :: ids). split; [simpl; now rewrite Hlen|].
    cbn [length combine rafIds rafLog lastHandle cancelLog pendingCallbacks].
    rewrite <- !app_assoc. cbn [app]. rewrite Nat2Z.inj_succ.
    f_equal. f_equal. lia.
Qed.

Lemma cleanup_eq c w :
  cleanup c w =
  ({| isVisible := isVisible c; pendingCallbacks := []; rafIds := [] |},
   {| lastHandle := lastHandle w; rafLog := rafLog w;
      cancelLog := cancelLog w ++ rafIds c |}).
Proof. unfold cleanup. now rewrite forEach_cancel_log. Qed.

(** One call other than [cleanup] keeps the queue discipline and neither
    loses nor reorders a callback: what has been forwarded followed by what
    is pending grows by exactly the callback scheduled, at the end. *)
Lemma step_fifo c w op :
  settled c -> is_cleanup op = false ->
  settled (fst (step (c, w) op)) /\
  forwarded (snd (step (c, w) op)) ++ pendingCallbacks (fst (step (c, w) op)) =
    (forwarded w ++ pendingCallbacks c) ++ scheduled [op].
Proof.
  intros Hs Hop. destruct op as [cb|v|]; [| |discriminate Hop].
  - cbn [step fst snd scheduled flat_map]. unfold visibilityAwareRAF.
    destruct (isVisible c) eqn:Hv.
    + cbn. unfold settled, forwarded. cbn. split; [intros _; now apply Hs|].
      rewrite (Hs Hv), map_app. cbn. now rewrite !app_nil_r.
    + cbn. unfold settled, forwarded. cbn. split; [congruence|].
      now rewrite app_assoc.
  - cbn [step fst snd scheduled flat_map app]. rewrite app_nil_r.
    unfold setVisible. cbn [isVisible pendingCallbacks rafIds].
    destruct v; cbn [andb].
    + destruct (0 <? Z.of_nat (length (pendingCallbacks c))) eqn:Hlen.
      * edestruct (forEach_RAF_visible (pendingCallbacks c)) as (ids & Hids & ->);
          [reflexivity|].
        cbn. unfold settled, forwarded. cbn. split; [reflexivity|].
        rewrite map_app, app_nil_r. f_equal.
        now apply combine_snd.
      * cbn. unfold settled. cbn. split; [|reflexivity].
        intros _. destruct (pendingCallbacks c); [reflexivity|].
        apply Z.ltb_ge in Hlen. cbn [length] in Hlen. lia.
    + cbn. unfold settled. cbn. split; [congruence|reflexivity].
Qed.

Lemma scheduled_cons op ops :
  scheduled (op :: ops) = scheduled [op] ++ scheduled ops.
Proof. unfold scheduled. cbn [flat_map]. now rewrite app_nil_r. Qed.

Lemma run_fifo ops :
  forall c w, settled c -> existsb is_cleanup ops = false ->
  settled (fst (run ops (c, w))) /\
  forwarded (snd (run ops (c, w))) ++ pendingCallbacks (fst (run ops (c, w))) =
    (forwarded w ++ pendingCallbacks c) ++ scheduled ops.
Proof.
  induction ops as [|op ops IH]; intros c w Hs Hops.
  - cbn. split; [assumption|]. now rewrite app_nil_r.
  - cbn in Hops. apply orb_false_iff in Hops as [Hop Hops].
    destruct (step_fifo c w op Hs Hop) as [Hs' Heq].
    change (run (op :: ops) (c, w)) with (run ops (step (c, w) op)).
    destruct (step (c, w) op) as [c1 w1] eqn:Hstep. cbn [fst snd] in *.
    destruct (IH c1 w1 Hs' Hops) as [Hs2 Heq2]. split; [assumption|].
    rewrite Heq2, Heq, (scheduled_cons op ops).
    now rewrite <- !app_assoc.
Qed.

Lemma step_accounted c w op :
  exists new,
    handles (snd (step (c, w) op)) = handles w ++ new /\
    forall id, accounted c w id \/ In id new ->
               accounted (fst (step (c, w) op)) (snd (step (c, w) op)) id.
Proof.
  unfold accounted. destruct op as [cb|v|]; cbn [step fst snd].
  - unfold visibilityAwareRAF. destruct (isVisible c).
    + exists [lastHandle w + 1]. cbn. unfold handles. cbn. split.
      * now rewrite map_app.
      * intros id. rewrite in_app_iff. cbn. tauto.
    + exists []. cbn. split; [now rewrite app_nil_r|]. cbn. tauto.
  - unfold setVisible. cbn [isVisible pendingCallbacks rafIds].
    destruct (v && (0 <? Z.of_nat (length (pendingCallbacks c)))) eqn:Hb.
    + apply andb_true_iff in Hb as [-> _].
      edestruct (forEach_RAF_visible (pendingCallbacks c)) as (ids & Hids & ->);
        [reflexivity|].
      exists ids. cbn. unfold handles. cbn. split.
      * rewrite map_app. f_equal.
        now apply combine_fst.
      * intros id. rewrite in_app_iff. tauto.
    + exists []. cbn. split; [now rewrite app_nil_r|]. cbn. tauto.
  - rewrite cleanup_eq. exists []. cbn. split; [now rewrite app_nil_r|].
    intros id. rewrite in_app_iff. cbn. tauto.
Qed.

Lemma run_accounted ops :
  forall c w, exists issued,
    handles (snd (run ops (c, w))) = handles w ++ issued /\
    forall id, accounted c w id \/ In id issued ->
               accounted (fst (run ops (c, w))) (snd (run ops (c, w))) id.
Proof.
  induction ops as [|op ops IH]; intros c w.
  - exists []. cbn. split; [now rewrite app_nil_r|]. cbn. tauto.
  - change (run (op :: ops) (c, w)) with (run ops (step (c, w) op)).
    destruct (step_accounted c w op) as (new & Hh & Hacc).
    destruct (step (c, w) op) as [c1 w1]. cbn [fst snd] in *.
    destruct (IH c1 w1) as (issued & Hh2 & Hacc2).
    exists (new ++ issued). split.
    + now rewrite Hh2, Hh, app_assoc.
    + intros id Hid. apply Hacc2. rewrite in_app_iff in Hid.
      destruct Hid as [Hid|[Hid|Hid]]; [left; apply Hacc; now left
                                       |left; apply Hacc; now right
                                       |now right].
Qed.

(** C3. [visibilityAwareRAF(callback)] on any controller: when the
    visibility flag is true the callback goes to [requestAnimationFrame] at
    once (the browser after the call is the browser after that single
    request, the handle is recorded and returned, nothing is queued); when
    the flag is false the callback is appended to [pendingCallbacks], [-1]
    is returned and the browser is untouched, so the primitive was not
    invoked. *)
Theorem schedule_forwards_or_queues cb c w :
  if isVisible c then
    exists id w',
      requestAnimationFrame cb w = (id, w') /\
      visibilityAwareRAF cb c w =
        (id,
         {| isVisible := true; pendingCallbacks := pendingCallbacks c;
            rafIds := rafIds c ++ [id] |},
         w') /\
      forwarded w' = forwarded w ++ [cb]
  else
    visibilityAwareRAF cb c w =
      (-1,
       {| isVisible := false; pendingCallbacks := pendingCallbacks c ++ [cb];
          rafIds := rafIds c |},
       w).
Proof.
  unfold visibilityAwareRAF. destruct (isVisible c) eqn:Hv.
  - eexists _, _. split; [reflexivity|]. cbn. split; [reflexivity|].
    unfold forwarded. cbn. now rewrite map_app.
  - reflexivity.
Qed.

(** C2. After any sequence of [schedule] and [setVisible] calls on a fresh
    controller that leaves the visibility flag false, [setVisible(true)]
    requests a frame for every stored callback, in the order in which they
    were stored (the browser's request log grows by the stored callbacks
    paired with fresh handles, which the controller records), cancels
    nothing, sets the flag and leaves the store empty. With it, every
    callback scheduled since the controller was created has been forwarded,
    in the order of the [schedule] calls. *)
Theorem setVisible_replays_fifo ops (w0 : Browser Callback) c w :
  existsb is_cleanup ops = false ->
  run ops (createAnimationController, w0) = (c, w) ->
  isVisible c = false ->
  exists ids c' w',
    setVisible true c w = (c', w') /\
    length ids = length (pendingCallbacks c) /\
    rafLog w' = rafLog w ++ combine ids (pendingCallbacks c) /\
    forwarded w' = forwarded w ++ pendingCallbacks c /\
    cancelLog w' = cancelLog w /\
    rafIds c' = rafIds c ++ ids /\
    isVisible c' = true /\
    pendingCallbacks c' = [] /\
    forwarded w' = forwarded w0 ++ scheduled ops.
Proof.
  intros Hops Hrun Hv.
  assert (Hinit : settled (@createAnimationController Callback))
    by (intros _; reflexivity).
  destruct (run_fifo ops _ w0 Hinit Hops) as [_ Hfifo].
  rewrite Hrun in Hfifo. cbn [fst snd createAnimationController pendingCallbacks] in Hfifo.
  rewrite app_nil_r in Hfifo.
  assert (Hfwd : forall ids, length ids = length (pendingCallbacks c) ->
            map snd (rafLog w ++ combine ids (pendingCallbacks c)) =
            forwarded w ++ pendingCallbacks c).
  { intros ids Hl. rewrite map_app. unfold forwarded. f_equal.
    now apply combine_snd. }
  unfold setVisible. cbn [isVisible pendingCallbacks rafIds andb].
  destruct (0 <? Z.of_nat (length (pendingCallbacks c))) eqn:Hlen.
  - edestruct (forEach_RAF_visible (pendingCallbacks c)) as (ids & Hids & ->);
      [reflexivity|].
    eexists ids, _, _. split; [reflexivity|]. cbn.
    rewrite (Hfwd ids Hids).
    repeat split; try assumption; reflexivity.
  - assert (Hnil : pendingCallbacks c = []).
    { destruct (pendingCallbacks c); [reflexivity|].
      apply Z.ltb_ge in Hlen. cbn [length] in Hlen. lia. }
    exists [], {| isVisible := true; pendingCallbacks := pendingCallbacks c;
                  rafIds := rafIds c |}, w.
    rewrite Hnil in *. cbn. rewrite !app_nil_r in *.
    repeat split; try assumption; reflexivity.
Qed.

End Facts.

(** C2 on a concrete run: ["tick"] is scheduled while visible, then the
    view is hidden and ["spin"] and ["pulse"] are scheduled. *)
Lemma setVisible_replays_fifo_witness :
  let ops := [Schedule "tick"; SetVisible false; Schedule "spin";
              SetVisible false; Schedule "pulse"] in
  let w0 := {| lastHandle := 0; rafLog := []; cancelLog := [] |} in
  let c := {| isVisible := false; pendingCallbacks := ["spin"; "pulse"];
              rafIds := [1] |} in
  let w := {| lastHandle := 1; rafLog := [(1, "tick")]; cancelLog := [] |} in
  exists ids c' w',
    setVisible true c w = (c', w') /\
    length ids = length (pendingCallbacks c) /\
    rafLog w' = rafLog w ++ combine ids (pendingCallbacks c) /\
    forwarded w' = forwarded w ++ pendingCallbacks c /\
    cancelLog w' = cancelLog w /\
    rafIds c' = rafIds c ++ ids /\
    isVisible c' = true /\
    pendingCallbacks c' = [] /\
    forwarded w' = forwarded w0 ++ scheduled ops.
Proof.
  intros ops w0 c w.
  exact (setVisible_replays_fifo ops w0 c w eq_refl eq_refl eq_refl).
Defined.

End AnimFacts.

(* ===================================================================== *)
(** ** Properties of the wrapper *)
(* ===================================================================== *)

Module WrapperFacts.
Import Wrapper.

Section Facts.

Context {App TToolInput CallToolResult : Type}.
Implicit Types (s : State TToolInput CallToolResult) (a : option TToolInput).
Implicit Types (later : list (Event TToolInput CallToolResult)).

Lemma run_cons s e later : run (e :: later) s = run later (handle s e).
Proof. reflexivity. Qed.

Lemma run_toolInputs later :
  forall s a, toolInputs s = a ->
              toolInputs (run later s) = lastComplete a later.
Proof.
  induction later as [|e later IH]; intros s a Hs; [exact Hs|].
  rewrite run_cons. destruct e as [b|b|r|params|[ctx|]]; cbn; apply IH;
    try exact Hs; reflexivity.
Qed.

Lemma lastComplete_id later :
  forall a, existsb is_complete later = false -> lastComplete a later = a.
Proof.
  induction later as [|e later IH]; intros a H; [reflexivity|].
  cbn in H. apply orb_false_iff in H as [He H].
  destruct e; try discriminate He; cbn; now apply IH.
Qed.

Lemma lastComplete_is_Some later :
  forall a, is_Some a -> forallb carriesArguments later = true ->
            is_Some (lastComplete a later).
Proof.
  induction later as [|e later IH]; intros a Ha H; [exact Ha|].
  cbn [forallb] in H. apply andb_true_iff in H as [He H].
  destruct e as [[b|]|b|r|params|ctx]; try discriminate He; cbn;
    apply IH; try assumption. now exists b.
Qed.

(** C5. In every state of the wrapper, a partial tool-input event stores
    what it carries as the partial value, whatever was stored before, and
    leaves the complete value (and everything else) as it was; a complete
    tool-input event stores what it carries as the complete value and sets
    the partial value to [null]. *)
Theorem tool_input_events_store s a :
  (toolInputsPartial (handle s (ToolInputPartial a)) = a /\
   toolInputs (handle s (ToolInputPartial a)) = toolInputs s /\
   toolResult (handle s (ToolInputPartial a)) = toolResult s /\
   hostContext (handle s (ToolInputPartial a)) = hostContext s) /\
  (toolInputs (handle s (ToolInput a)) = a /\
   toolInputsPartial (handle s (ToolInput a)) = None /\
   toolResult (handle s (ToolInput a)) = toolResult s /\
   hostContext (handle s (ToolInput a)) = hostContext s).
Proof. repeat split. Qed.

(** C6, as the code has it. After a complete event the complete value is
    what the latest complete event carried, whatever events follow. Events
    that are not complete events (partial ones among them) neither remove
    nor change it. After a complete event that carries arguments it is
    therefore not [null] as long as every later complete event carries
    arguments too. *)
Theorem complete_value_follows_complete_events s a later :
  toolInputs (run later (handle s (ToolInput a))) = lastComplete a later /\
  (existsb is_complete later = false ->
   toolInputs (run later (handle s (ToolInput a))) = a) /\
  (forall partials : list (option TToolInput),
   toolInputs (run (map ToolInputPartial partials) (handle s (ToolInput a))) = a) /\
  (is_Some a -> forallb carriesArguments later = true ->
   is_Some (toolInputs (run later (handle s (ToolInput a))))).
Proof.
  assert (H : toolInputs (run later (handle s (ToolInput a)))
              = lastComplete a later) by now apply run_toolInputs.
  split; [exact H|]. split; [|split].
  - intros Hno. now rewrite H, lastComplete_id.
  - intros partials.
    rewrite (run_toolInputs _ (handle s (ToolInput a)) a eq_refl), lastComplete_id;
      [reflexivity|].
    induction partials; [reflexivity|assumption].
  - intros Ha Hall. rewrite H. now apply lastComplete_is_Some.
Qed.

(** C8. When [useApp] reports an error the wrapper returns the error
    [<div>] with the error's message and nothing else: the view component
    is not rendered, whether or not an app is connected and whatever tool
    input, tool result and host context are stored. *)
Theorem connection_error_blocks (app : option App) (e : Error) s :
  McpAppWrapper app (Some e) s = ErrorDiv ("Error: " ++ message e)%string /\
  is_view (McpAppWrapper app (Some e) s) = false.
Proof. split; reflexivity. Qed.

(** C10. A host-context-change event stores an object in which every
    property of the event has the event's value and every other property
    has the value it has in the context stored before the event (no value
    when no context was stored); the other cells are untouched. *)
Theorem host_context_merges s (params : HostContext) :
  exists merged : HostContext,
    hostContext (handle s (HostContextChanged params)) = Some merged /\
    (forall k : string,
       merged !! k = match params !! k with
                     | Some v => Some v
                     | None => match hostContext s with
                               | Some prev => prev !! k
                               | None => None
                               end
                     end) /\
    toolInputs (handle s (HostContextChanged params)) = toolInputs s /\
    toolInputsPartial (handle s (HostContextChanged params)) = toolInputsPartial s /\
    toolResult (handle s (HostContextChanged params)) = toolResult s.
Proof.
  exists (params ∪ spread (hostContext s)). split; [reflexivity|].
  split; [|repeat split].
  intros k. rewrite lookup_union.
  destruct (hostContext s) as [prev|]; cbn [spread].
  - destruct (params !! k), (prev !! k); reflexivity.
  - rewrite lookup_empty. destruct (params !! k); reflexivity.
Qed.

End Facts.

(** C6 as stated fails: a complete event that carries no arguments stores
    [undefined]. After a complete event with arguments, a later one without
    returns the complete value to [null]; and a first complete event
    without arguments does not even leave the empty state. *)
Lemma complete_without_arguments_returns_to_null :
  let s : State string nat := handle initial (ToolInput (Some "const")) in
  toolInputs s = Some "const" /\
  toolInputs (run [ToolInputPartial (Some "con"); ToolInput None] s) = None /\
  toolInputs (handle (@initial string nat) (ToolInput None)) = None.
Proof. cbv zeta. repeat split. Qed.

(** C6 on a concrete stream: partial, complete, partial, result, complete. *)
Lemma complete_value_follows_complete_events_witness :
  let s : State string nat := handle initial (ToolInputPartial (Some "c")) in
  toolInputs
    (run [ToolInputPartial (Some "con"); ToolResult 7%nat]
         (handle s (ToolInput (Some "const"))))
    = Some "const" /\
  is_Some (toolInputs
             (run [ToolInputPartial None; ToolInput (Some "let")]
                  (handle s (ToolInput (Some "const"))))).
Proof.
  intros s. split.
  - exact (proj1 (proj2 (complete_value_follows_complete_events
                           s (Some "const")
                           [ToolInputPartial (Some "con"); ToolResult 7%nat]))
                 eq_refl).
  - exact (proj2 (proj2 (proj2 (complete_value_follows_complete_events
                                  s (Some "const")
                                  [ToolInputPartial None; ToolInput (Some "let")])))
                 (ex_intro _ "const" eq_refl) eq_refl).
Defined.

End WrapperFacts.

(* ===================================================================== *)
(** ** Properties of the view component *)
(* ===================================================================== *)

Module ThreeJSFacts.
Import ThreeJS.

Section Facts.

Context {App CallToolResult Callback : Type}.
Implicit Types (p : ThreeJSAppProps App CallToolResult).
Implicit Types (st : State Callback) (w : Anim.Browser Callback).

Lemma default_code_truthy : truthy DEFAULT_THREEJS_CODE = true.
Proof. reflexivity. Qed.

(** The guard [!code] of the render and of the scene effect never fires:
    the code is a non-empty tool input or the default. *)
Lemma codeOf_truthy p : truthy (codeOf p) = true.
Proof.
  unfold codeOf. destruct (Props.toolInputs p ≫= code) as [c|];
    [|exact default_code_truthy].
  destruct (truthy c) eqn:Hc; [exact Hc|exact default_code_truthy].
Qed.

Lemma render_canvas p st :
  isStreaming p = false ->
  ThreeJSApp p st =
    Canvas (containerStyle p)
      {| className := ("threejs-container" ++
                       (if isFullscreen st then " fullscreen" else ""))%string;
         canvasHeight := heightOf p;
         errorOverlay := match error st with
                         | Some e => if truthy e then Some ("Error: " ++ e)%string else None
                         | None => None
                         end;
         buttonClassName := ("fullscreen-btn" ++
                             (if canFullscreen p then " available" else ""))%string;
         buttonTitle := if isFullscreen st then "Exit fullscreen"
                        else "Toggle fullscreen" |}.
Proof. intros Hs. unfold ThreeJSApp. now rewrite Hs, codeOf_truthy. Qed.

Lemma syncDisplayMode_frame p st :
  error (syncDisplayMode p st) = error st /\
  animControllerRef (syncDisplayMode p st) = animControllerRef st /\
  sceneDeps (syncDisplayMode p st) = sceneDeps st /\
  sceneCleanup (syncDisplayMode p st) = sceneCleanup st /\
  earlierControllers (syncDisplayMode p st) = earlierControllers st.
Proof.
  unfold syncDisplayMode. destruct (displayModeOf (Props.hostContext p)) as [m|];
    [destruct (String.eqb m "inline" || String.eqb m "fullscreen")|];
    repeat split.
Qed.

Lemma sync_frame (b : bool) p st :
  error (if b then syncDisplayMode p st else st) = error st /\
  animControllerRef (if b then syncDisplayMode p st else st) = animControllerRef st /\
  sceneCleanup (if b then syncDisplayMode p st else st) = sceneCleanup st /\
  earlierControllers (if b then syncDisplayMode p st else st)
    = earlierControllers st.
Proof.
  destruct b; [|repeat split].
  destruct (syncDisplayMode_frame p st) as (He & Hr & _ & Hc & Hl).
  now repeat split.
Qed.

Lemma cleanupCurrent_some st w c :
  animControllerRef st = Some c ->
  cleanupCurrent st w =
    ({| error := error st;
        currentDisplayMode := currentDisplayMode st;
        animControllerRef := Some (fst (Anim.cleanup c w));
        displayModeDeps := displayModeDeps st;
        sceneDeps := sceneDeps st;
        sceneCleanup := sceneCleanup st;
        earlierControllers := earlierControllers st |},
     snd (Anim.cleanup c w)).
Proof. intros H. unfold cleanupCurrent. now rewrite H. Qed.

Lemma cleanupCurrent_none st w :
  animControllerRef st = None -> cleanupCurrent st w = (st, w).
Proof. intros H. unfold cleanupCurrent. now rewrite H. Qed.

(** Cleaning up a controller twice in a row cancels nothing new. *)
Lemma cleanup_twice (c : Anim.Controller Callback) w :
  Anim.cleanup (fst (Anim.cleanup c w)) (snd (Anim.cleanup c w)) =
  Anim.cleanup c w.
Proof. rewrite !AnimFacts.cleanup_eq. cbn. now rewrite app_nil_r. Qed.

(** What [cleanupCurrent] does to the controllers and to the browser depends
    on the controllers alone, and doing it again changes nothing. *)
Lemma cleanupCurrent_controllers st st' w :
  animControllerRef st = animControllerRef st' ->
  earlierControllers st = earlierControllers st' ->
  snd (cleanupCurrent st w) = snd (cleanupCurrent st' w) /\
  animControllerRef (fst (cleanupCurrent st w))
    = animControllerRef (fst (cleanupCurrent st' w)) /\
  earlierControllers (fst (cleanupCurrent st w))
    = earlierControllers (fst (cleanupCurrent st' w)).
Proof.
  intros Hr He. unfold cleanupCurrent. rewrite <- Hr.
  destruct (animControllerRef st) as [c|] eqn:Hc; cbn; repeat split;
    congruence.
Qed.

Lemma cleanupCurrent_frame st w :
  error (fst (cleanupCurrent st w)) = error st /\
  currentDisplayMode (fst (cleanupCurrent st w)) = currentDisplayMode st /\
  displayModeDeps (fst (cleanupCurrent st w)) = displayModeDeps st /\
  sceneDeps (fst (cleanupCurrent st w)) = sceneDeps st /\
  sceneCleanup (fst (cleanupCurrent st w)) = sceneCleanup st /\
  earlierControllers (fst (cleanupCurrent st w)) = earlierControllers st.
Proof.
  unfold cleanupCurrent. destruct (animControllerRef st); repeat split.
Qed.

Lemma cleanupCurrent_again st w :
  snd (cleanupCurrent (fst (cleanupCurrent st w)) (snd (cleanupCurrent st w)))
    = snd (cleanupCurrent st w) /\
  animControllerRef
    (fst (cleanupCurrent (fst (cleanupCurrent st w)) (snd (cleanupCurrent st w))))
    = animControllerRef (fst (cleanupCurrent st w)).
Proof.
  destruct (animControllerRef st) as [c|] eqn:Hc.
  - rewrite (cleanupCurrent_some st w c Hc). cbn [fst snd].
    erewrite cleanupCurrent_some by reflexivity. cbn [fst snd animControllerRef].
    now rewrite cleanup_twice.
  - rewrite (cleanupCurrent_none st w Hc). cbn [fst snd].
    rewrite (cleanupCurrent_none st w Hc). now split.
Qed.

(** The scene code runs on a fresh, visible controller: each callback it
    requests goes to the browser at once, in order, and its handle is
    recorded; nothing is queued and nothing cancelled. *)
Lemma executeThreeCode_fresh (requested : list Callback) w :
  exists ids,
    length ids = length requested /\
    executeThreeCode requested Anim.createAnimationController w =
      ({| Anim.isVisible := true; Anim.pendingCallbacks := [];
          Anim.rafIds := ids |},
       {| Anim.lastHandle := Anim.lastHandle w + Z.of_nat (length requested);
          Anim.rafLog := Anim.rafLog w ++ combine ids requested;
          Anim.cancelLog := Anim.cancelLog w |}).
Proof.
  unfold executeThreeCode.
  destruct (AnimFacts.forEach_RAF_visible requested
              Anim.createAnimationController w eq_refl) as (ids & Hlen & Heq).
  exists ids. split; [exact Hlen|]. exact Heq.
Qed.

(** After a commit the scene effect has run for the code and height of the
    committed props. *)
Lemma commit_sceneDeps p (requested : list Callback) st w :
  sceneDeps (fst (commit p requested st w)) = Some (codeOf p, heightOf p).
Proof.
  unfold commit. case_bool_decide as Hdeps; cbn [negb andb].
  - destruct (negb (bool_decide _)); cbn [fst];
      [now rewrite (proj1 (proj2 (proj2 (syncDisplayMode_frame p st))))|exact Hdeps].
  - destruct (if sceneCleanup st then cleanupCurrent st w else (st, w)) as [st1 w1].
    unfold sceneEffect.
    destruct (negb (truthy (codeOf p)) || _ || _); [reflexivity|].
    destruct (cleanupCurrent _ w1) as [st3 w3].
    destruct (executeThreeCode requested _ w3). reflexivity.
Qed.

(** A commit that changes neither code nor height runs no part of the
    scene effect. *)
Lemma commit_keeps_scene p (requested : list Callback) st w :
  sceneDeps st = Some (codeOf p, heightOf p) ->
  snd (commit p requested st w) = w /\
  animControllerRef (fst (commit p requested st w)) = animControllerRef st /\
  error (fst (commit p requested st w)) = error st /\
  sceneCleanup (fst (commit p requested st w)) = sceneCleanup st /\
  sceneDeps (fst (commit p requested st w)) = sceneDeps st /\
  earlierControllers (fst (commit p requested st w)) = earlierControllers st.
Proof.
  intros Hs. unfold commit. rewrite (bool_decide_eq_true_2 _ Hs).
  cbn [negb andb fst snd]. split; [reflexivity|].
  destruct (negb _); [|repeat split].
  destruct (syncDisplayMode_frame p st) as (He & Hr & Hd & Hc & Hl).
  now repeat split.
Qed.

(** A commit with another code or height while the canvas is rendered:
    the controller in the ref is cleaned up (by the cleanup function of the
    previous run, by the first statement of the effect, or by both, which
    is the same) and left to its scene; the new scene's code runs on a
    fresh controller, which the ref now holds; the error is cleared. *)
Lemma commit_runs_scene p (requested : list Callback) st w :
  sceneDeps st <> Some (codeOf p, heightOf p) ->
  isStreaming p = false ->
  snd (commit p requested st w)
    = snd (executeThreeCode requested Anim.createAnimationController
             (snd (cleanupCurrent st w))) /\
  animControllerRef (fst (commit p requested st w))
    = Some (fst (executeThreeCode requested Anim.createAnimationController
                   (snd (cleanupCurrent st w)))) /\
  earlierControllers (fst (commit p requested st w))
    = leftByRef (fst (cleanupCurrent st w)) /\
  error (fst (commit p requested st w)) = None /\
  sceneCleanup (fst (commit p requested st w)) = true.
Proof.
  intros Hdeps Hs. unfold commit. rewrite (render_canvas p _ Hs).
  cbn [refsAttached]. rewrite bool_decide_eq_false_2 by exact Hdeps.
  cbn [negb andb]. unfold sceneEffect. rewrite codeOf_truthy. cbn [negb orb].
  set (b := negb (bool_decide (displayModeDeps st = _))).
  assert (Hsame :
    let sw1 := if sceneCleanup st then cleanupCurrent st w else (st, w) in
    let st2 := if b then syncDisplayMode p (fst sw1) else fst sw1 in
    snd (cleanupCurrent st2 (snd sw1)) = snd (cleanupCurrent st w) /\
    leftByRef (fst (cleanupCurrent st2 (snd sw1)))
      = leftByRef (fst (cleanupCurrent st w))).
  { cbn zeta. destruct (sceneCleanup st).
    - destruct (sync_frame b p (fst (cleanupCurrent st w))) as (_ & Hr & _ & Hl).
      destruct (cleanupCurrent_controllers _ (fst (cleanupCurrent st w))
                  (snd (cleanupCurrent st w)) Hr Hl) as (Hw & Hr' & Hl').
      destruct (cleanupCurrent_again st w) as [Hw2 Hr2].
      split; [now rewrite Hw|]. unfold leftByRef.
      rewrite Hr', Hl', Hr2.
      now rewrite (proj2 (proj2 (proj2 (proj2 (proj2
                    (cleanupCurrent_frame (fst (cleanupCurrent st w))
                                          (snd (cleanupCurrent st w)))))))).
    - cbn [fst snd].
      destruct (sync_frame b p st) as (_ & Hr & _ & Hl).
      destruct (cleanupCurrent_controllers _ st w Hr Hl) as (Hw & Hr' & Hl').
      split; [exact Hw|]. unfold leftByRef. now rewrite Hr', Hl'. }
  cbn zeta in Hsame.
  destruct (if sceneCleanup st then cleanupCurrent st w else (st, w))
    as [st1 w1]. cbn [fst snd] in Hsame. destruct Hsame as [Hw Hl].
  destruct (cleanupCurrent (if b then syncDisplayMode p st1 else st1) w1)
    as [st3 w3]. cbn [fst snd] in Hw, Hl. subst w3.
  destruct (executeThreeCode requested Anim.createAnimationController
              (snd (cleanupCurrent st w))) as [controller w4].
  cbn. now repeat split.
Qed.

(** A commit with another code or height while the streaming preview is
    rendered: the cleanup function of the previous run is called if there
    is one, and the effect returns at its guard. *)
Lemma commit_skips_scene p (requested : list Callback) st w :
  sceneDeps st <> Some (codeOf p, heightOf p) ->
  isStreaming p = true ->
  snd (commit p requested st w)
    = (if sceneCleanup st then snd (cleanupCurrent st w) else w) /\
  animControllerRef (fst (commit p requested st w))
    = (if sceneCleanup st then animControllerRef (fst (cleanupCurrent st w))
       else animControllerRef st) /\
  earlierControllers (fst (commit p requested st w)) = earlierControllers st /\
  error (fst (commit p requested st w)) = error st /\
  sceneCleanup (fst (commit p requested st w)) = false.
Proof.
  intros Hdeps Hs. unfold commit, ThreeJSApp. rewrite Hs.
  cbn [orb refsAttached]. rewrite bool_decide_eq_false_2 by exact Hdeps.
  cbn [negb andb]. unfold sceneEffect. cbn [negb orb]. rewrite !orb_true_r.
  set (b := negb (bool_decide (displayModeDeps st = _))).
  destruct (sceneCleanup st).
  - destruct (cleanupCurrent_frame st w) as (He & _ & _ & _ & _ & Hl).
    destruct (sync_frame b p (fst (cleanupCurrent st w))) as (He2 & Hr & _ & Hl2).
    destruct (cleanupCurrent st w) as [st1 w1]. cbn [fst snd] in *.
    cbn [fst snd animControllerRef earlierControllers error sceneCleanup].
    split; [reflexivity|]. split; [exact Hr|]. split; [congruence|].
    split; [congruence|reflexivity].
  - cbn [fst snd]. destruct (sync_frame b p st) as (He & Hr & _ & Hl).
    now repeat split.
Qed.

(** C9. The continuation of [toggleFullscreen] stores the mode it asked for
    when the host answers with exactly that mode; when the request is
    rejected or answered with any other mode the whole state, the stored
    display mode included, is what it was. So the stored mode changes only
    on an exact confirmation, and nothing but the mode ever changes. *)
Theorem toggle_changes_mode_only_on_confirmation
    (wasFullscreen : bool) (response : DisplayModeResponse) st :
  (response = Resolved (newMode wasFullscreen) ->
   currentDisplayMode (toggleFullscreen wasFullscreen response st)
     = newMode wasFullscreen) /\
  (response <> Resolved (newMode wasFullscreen) ->
   toggleFullscreen wasFullscreen response st = st) /\
  (currentDisplayMode (toggleFullscreen wasFullscreen response st)
     <> currentDisplayMode st ->
   response = Resolved (newMode wasFullscreen)) /\
  error (toggleFullscreen wasFullscreen response st) = error st /\
  animControllerRef (toggleFullscreen wasFullscreen response st)
    = animControllerRef st.
Proof.
  unfold toggleFullscreen. destruct response as [m|].
  - destruct (String.eqb m (newMode wasFullscreen)) eqn:Hm.
    + apply String.eqb_eq in Hm. subst m. cbn. repeat split; congruence.
    + apply String.eqb_neq in Hm. repeat split; congruence.
  - repeat split; congruence.
Qed.

(** C1, as the code has it. With a complete tool input the canvas is
    rendered, never the streaming preview; the code is taken from the
    complete input alone (its [code] when that is a non-empty string, the
    default demo code otherwise); the height is the complete input's
    [height] when it has one, and only otherwise the partial input's
    [height], then 400. Without a complete input but with a partial one the
    streaming preview is rendered with the partial input's code and its
    height (400 when it has none). With neither, the canvas is rendered for
    the default demo code at height 400. In every case the scene effect
    runs for exactly that code and height. *)
Theorem render_prefers_complete_per_field p st :
  match Props.toolInputs p, Props.toolInputsPartial p with
  | Some ti, partial =>
      codeOf p = match code ti with
                 | Some c => if truthy c then c else DEFAULT_THREEJS_CODE
                 | None => DEFAULT_THREEJS_CODE
                 end /\
      heightOf p = match height ti with
                   | Some h => h
                   | None => match partial ≫= height with
                             | Some h => h
                             | None => 400
                             end
                   end /\
      exists scene,
        ThreeJSApp p st = Canvas (containerStyle p) scene /\
        canvasHeight scene = heightOf p
  | None, Some pi =>
      ThreeJSApp p st =
        Streaming (containerStyle p)
          (LoadingShimmer (match height pi with Some h => h | None => 400 end)
                          (code pi))
  | None, None =>
      codeOf p = DEFAULT_THREEJS_CODE /\
      heightOf p = 400 /\
      exists scene,
        ThreeJSApp p st = Canvas (containerStyle p) scene /\
        canvasHeight scene = 400
  end /\
  forall requested w,
    sceneDeps (fst (commit p requested st w)) = Some (codeOf p, heightOf p).
Proof.
  split; [|intros requested w; apply commit_sceneDeps].
  destruct (Props.toolInputs p) as [ti|] eqn:Hti;
    [|destruct (Props.toolInputsPartial p) as [pi|] eqn:Hpi].
  - assert (Hs : isStreaming p = false) by (unfold isStreaming; now rewrite Hti).
    unfold codeOf, heightOf. rewrite Hti. cbn.
    repeat split. eexists. split; [apply (render_canvas p st Hs)|].
    cbn. unfold heightOf. rewrite Hti. reflexivity.
  - unfold ThreeJSApp, isStreaming, heightOf, partialCode.
    rewrite Hti, Hpi. reflexivity.
  - assert (Hs : isStreaming p = false)
      by (unfold isStreaming; now rewrite Hti, Hpi).
    assert (Hh : heightOf p = 400) by (unfold heightOf; now rewrite Hti, Hpi).
    unfold codeOf. rewrite Hti. cbn. repeat split; [exact Hh|].
    eexists. split; [apply (render_canvas p st Hs)|exact Hh].
Qed.

(** The same with nothing left folded: the frames the old controller had
    recorded are cancelled, in order, and it is left to its scene without
    handle or queue; the new scene's requests reach the browser in order and
    their handles are recorded by the fresh controller in the ref. *)
Lemma commit_replaces_scene p (requested : list Callback) st w :
  sceneDeps st <> Some (codeOf p, heightOf p) ->
  isStreaming p = false ->
  exists ids,
    length ids = length requested /\
    animControllerRef (fst (commit p requested st w))
      = Some {| Anim.isVisible := true; Anim.pendingCallbacks := [];
                Anim.rafIds := ids |} /\
    Anim.rafLog (snd (commit p requested st w))
      = Anim.rafLog w ++ combine ids requested /\
    Anim.cancelLog (snd (commit p requested st w))
      = Anim.cancelLog w ++ match animControllerRef st with
                            | Some c => Anim.rafIds c
                            | None => []
                            end /\
    earlierControllers (fst (commit p requested st w))
      = earlierControllers st
        ++ match animControllerRef st with
           | Some c => [{| Anim.isVisible := Anim.isVisible c;
                           Anim.pendingCallbacks := [];
                           Anim.rafIds := [] |}]
           | None => []
           end /\
    error (fst (commit p requested st w)) = None /\
    sceneCleanup (fst (commit p requested st w)) = true.
Proof.
  intros Hdeps Hs.
  destruct (commit_runs_scene p requested st w Hdeps Hs)
    as (Hw & Hr & Hl & He & Hc).
  destruct (executeThreeCode_fresh requested (snd (cleanupCurrent st w)))
    as (ids & Hlen & Hexec).
  rewrite Hexec in Hw, Hr. cbn [fst snd] in Hw, Hr.
  exists ids. rewrite Hw, Hr, Hl, He, Hc. cbn [Anim.rafLog Anim.cancelLog].
  split; [exact Hlen|]. split; [reflexivity|].
  destruct (animControllerRef st) as [c|] eqn:Href.
  - rewrite (cleanupCurrent_some st w c Href), AnimFacts.cleanup_eq.
    unfold leftByRef. cbn. now repeat split.
  - rewrite (cleanupCurrent_none st w Href). unfold leftByRef.
    cbn [fst snd]. rewrite Href, !app_nil_r. now repeat split.
Qed.



End Facts.

(** *** Concrete runs *)

(** C1 as stated fails: a complete input without [height], followed by a
    partial event that carries one. The wrapper passes both to the view,
    and the rendered height is the partial input's 200; with the same
    complete input and no partial input it is 400. The complete input is
    present in both renders, yet what is rendered differs with the partial
    input. *)
Lemma complete_input_is_not_authoritative :
  let complete := {| code := Some "scene()"; height := None |} in
  let partial := {| code := None; height := Some 200 |} in
  let s := Wrapper.run [Wrapper.ToolInput (Some complete);
                        Wrapper.ToolInputPartial (Some partial)]
                       (@Wrapper.initial ThreeJSToolInput unit) in
  Wrapper.McpAppWrapper (Some tt) None s
    = Wrapper.View (propsOf (Some complete) (Some partial)) /\
  heightOf (propsOf (Some complete) (Some partial)) = 200 /\
  heightOf (propsOf (Some complete) None) = 400 /\
  ThreeJSApp (propsOf (Some complete) (Some partial)) (@initial string)
    <> ThreeJSApp (propsOf (Some complete) None) (@initial string).
Proof.
  cbv zeta. split; [reflexivity|]. split; [reflexivity|]. split; [reflexivity|].
  intros H. vm_compute in H. discriminate H.
Qed.


(** Also an input that differs from the failed scene can leave the error
    in place. The default scene fails at height 400; a partial input of
    height 300 makes the effect run again and return at its guard, before
    [setError(null)]; the complete input of height 300 then finds the
    dependencies unchanged. *)
Example error_survives_an_input_seen_while_streaming :
  let mounted := commit (propsOf None None) ["spin"] (@initial string) emptyBrowser in
  let failed := sceneRejected (ThrownError "no WebGL") (fst mounted) in
  let streaming :=
    commit (propsOf None (Some {| code := None; height := Some 300 |})) []
           failed (snd mounted) in
  let completed :=
    commit (propsOf (Some {| code := None; height := Some 300 |}) None) ["spin"]
           (fst streaming) (snd streaming) in
  sceneDeps (fst mounted) = Some (DEFAULT_THREEJS_CODE, 400) /\
  sceneDeps (fst streaming) = Some (DEFAULT_THREEJS_CODE, 300) /\
  error (fst completed) = Some "no WebGL"%string /\
  sceneCleanup (fst completed) = false.
Proof. cbv zeta. repeat split; vm_compute; reflexivity. Qed.

(** An [Error] thrown with an empty message stores the empty string, which
    the render treats like no error: the canvas is rendered without
    overlay. *)
Example empty_message_shows_no_overlay :
  let p := propsOf (Some {| code := Some "throw new Error()"; height := None |}) None in
  let mounted := commit p [] (@initial string) emptyBrowser in
  let failed := sceneRejected (ThrownError "") (fst mounted) in
  error failed = Some ""%string /\
  exists scene,
    ThreeJSApp p failed = Canvas (containerStyle p) scene /\
    errorOverlay scene = None.
Proof.
  cbv zeta. split; [reflexivity|]. eexists. split; reflexivity.
Qed.



(** Nor does unmounting reach a frame that a replaced scene requested after
    it was replaced: that request goes to the scene's own controller, which
    the ref has left. Scene 0 is replaced by scene 1, then requests
    ["late"]; the unmount cancels the frame of scene 1 (handle 2) and the
    earlier frame of scene 0 was cancelled at the replacement (handle 1),
    but handle 3 is never cancelled. *)
Example replaced_scene_frame_survives_unmount :
  let sw := run [Render (propsOf None None) ["spin"];
                 Render (propsOf (Some {| code := Some "orbit()"; height := None |})
                                 None) ["orbit"];
                 SceneRAF 0 "late"]
                (@initial string, emptyBrowser) in
  Anim.handles (snd (unmount (fst sw) (snd sw))) = [1; 2; 3] /\
  Anim.cancelLog (snd (unmount (fst sw) (snd sw))) = [1; 2] /\
  earlierControllers (fst (unmount (fst sw) (snd sw)))
    = [{| Anim.isVisible := true; Anim.pendingCallbacks := [];
          Anim.rafIds := [3] |}].
Proof. cbv zeta. repeat split; vm_compute; reflexivity. Qed.


(** C9 on concrete answers: the host confirms fullscreen; the host answers
    with another mode. *)
Lemma toggle_changes_mode_only_on_confirmation_witness :
  currentDisplayMode (toggleFullscreen false (Resolved "fullscreen") (@initial string))
    = "fullscreen" /\
  toggleFullscreen false (Resolved "pip") (@initial string) = initial.
Proof.
  split.
  - exact (proj1 (toggle_changes_mode_only_on_confirmation
                    false (Resolved "fullscreen") (@initial string)) eq_refl).
  - exact (proj1 (proj2 (toggle_changes_mode_only_on_confirmation
                           false (Resolved "pip") (@initial string)))
                 ltac:(discriminate)).
Defined.

End ThreeJSFacts.

(* ===================================================================== *)
(** ** Further properties of the animation controller *)
(* ===================================================================== *)

Module AnimMore.
Import Anim.

Section Facts.

Context {Callback : Type}.
Implicit Types (c : Controller Callback) (w : Browser Callback).
Implicit Types (cb : Callback) (ops : list (Op Callback)).

Lemma step_keeps_cancelLog c w op :
  is_cleanup op = false -> cancelLog (snd (step (c, w) op)) = cancelLog w.
Proof.
  intros Hop. destruct op as [cb|v|]; [| |discriminate Hop]; cbn [step fst snd].
  - unfold visibilityAwareRAF. destruct (isVisible c); reflexivity.
  - unfold setVisible. cbn [isVisible pendingCallbacks rafIds].
    destruct (v && _) eqn:Hb; [|reflexivity].
    apply andb_true_iff in Hb as [-> _].
    edestruct (AnimFacts.forEach_RAF_visible (pendingCallbacks c)) as (ids & _ & ->);
      [reflexivity|reflexivity].
Qed.

Lemma run_keeps_cancelLog ops :
  forall c w, existsb is_cleanup ops = false ->
              cancelLog (snd (run ops (c, w))) = cancelLog w.
Proof.
  induction ops as [|op ops IH]; intros c w Hops; [reflexivity|].
  cbn in Hops. apply orb_false_iff in Hops as [Hop Hops].
  change (run (op :: ops) (c, w)) with (run ops (step (c, w) op)).
  pose proof (step_keeps_cancelLog c w op Hop) as Hstep.
  destruct (step (c, w) op) as [c1 w1]. cbn [snd] in Hstep.
  now rewrite IH, Hstep.
Qed.

(** X1. Without [cleanup], no callback is lost, duplicated or reordered:
    after every sequence of [schedule] and [setVisible] calls on a fresh
    controller, the callbacks requested from the browser followed by the
    callbacks still queued are exactly the callbacks scheduled, in schedule
    order. A visible controller queues nothing, and no frame is cancelled. *)
Theorem callbacks_are_conserved ops (w0 : Browser Callback) :
  existsb is_cleanup ops = false ->
  forwarded (snd (run ops (createAnimationController, w0)))
    ++ pendingCallbacks (fst (run ops (createAnimationController, w0)))
    = forwarded w0 ++ scheduled ops /\
  (isVisible (fst (run ops (createAnimationController, w0))) = true ->
   pendingCallbacks (fst (run ops (createAnimationController, w0))) = []) /\
  cancelLog (snd (run ops (createAnimationController, w0))) = cancelLog w0.
Proof.
  intros Hops.
  assert (Hinit : settled (@createAnimationController Callback))
    by (intros _; reflexivity).
  destruct (AnimFacts.run_fifo ops _ w0 Hinit Hops) as [Hs Hfifo].
  cbn [createAnimationController pendingCallbacks] in Hfifo.
  rewrite app_nil_r in Hfifo.
  split; [exact Hfifo|]. split; [exact Hs|]. now apply run_keeps_cancelLog.
Qed.

Lemma step_splits_handles (H0 K0 : list Z) c w op :
  (exists cancelled,
     handles w = H0 ++ cancelled ++ rafIds c /\ cancelLog w = K0 ++ cancelled) ->
  exists cancelled,
    handles (snd (step (c, w) op))
      = H0 ++ cancelled ++ rafIds (fst (step (c, w) op)) /\
    cancelLog (snd (step (c, w) op)) = K0 ++ cancelled.
Proof.
  intros (cancelled & Hh & Hk). destruct op as [cb|v|]; cbn [step fst snd].
  - unfold visibilityAwareRAF. destruct (isVisible c); cbn.
    + exists cancelled. unfold handles in *. cbn. rewrite map_app, Hh. cbn.
      split; [now rewrite <- !app_assoc|exact Hk].
    + exists cancelled. now split.
  - unfold setVisible. cbn [isVisible pendingCallbacks rafIds].
    destruct (v && _) eqn:Hb.
    + apply andb_true_iff in Hb as [-> _].
      edestruct (AnimFacts.forEach_RAF_visible (pendingCallbacks c))
        as (ids & Hids & ->); [reflexivity|].
      exists cancelled. unfold handles in *. cbn.
      rewrite map_app, Hh, (AnimFacts.combine_fst _ ids Hids).
      split; [now rewrite <- !app_assoc|exact Hk].
    + exists cancelled. now split.
  - rewrite AnimFacts.cleanup_eq. exists (cancelled ++ rafIds c).
    unfold handles in *. cbn. rewrite Hh, Hk.
    split; [now rewrite app_nil_r|now rewrite app_assoc].
Qed.

(** X2. The controller cancels exactly what it was issued, nothing else
    and in issue order: after every sequence of calls on a fresh
    controller, the handles the browser gave out during the run are those
    it has since been asked to cancel, followed by those still in
    [rafIds]. *)
Theorem handles_are_cancelled_or_recorded ops (w0 : Browser Callback) :
  exists cancelled,
    handles (snd (run ops (createAnimationController, w0)))
      = handles w0 ++ cancelled
        ++ rafIds (fst (run ops (createAnimationController, w0))) /\
    cancelLog (snd (run ops (createAnimationController, w0)))
      = cancelLog w0 ++ cancelled.
Proof.
  assert (Hgen : forall c w,
            (exists cancelled,
               handles w = handles w0 ++ cancelled ++ rafIds c /\
               cancelLog w = cancelLog w0 ++ cancelled) ->
            exists cancelled,
              handles (snd (run ops (c, w)))
                = handles w0 ++ cancelled ++ rafIds (fst (run ops (c, w))) /\
              cancelLog (snd (run ops (c, w))) = cancelLog w0 ++ cancelled).
  { induction ops as [|op ops IH]; intros c w Hinv; [exact Hinv|].
    change (run (op :: ops) (c, w)) with (run ops (step (c, w) op)).
    pose proof (step_splits_handles _ _ c w op Hinv) as Hstep.
    destruct (step (c, w) op) as [c1 w1]. now apply IH. }
  apply Hgen. exists []. cbn. now rewrite !app_nil_r.
Qed.

(** X3. A hidden controller is silent: as long as it is only sent
    [schedule] and [setVisible(false)] the browser is not touched at all
    (no frame requested, none cancelled), every scheduled callback is
    appended to the queue in order, and the recorded handles stay as they
    were. *)
Theorem hidden_controller_is_silent ops :
  forall c w,
  isVisible c = false ->
  forallb keepsHidden ops = true ->
  run ops (c, w) =
    ({| isVisible := false;
        pendingCallbacks := pendingCallbacks c ++ scheduled ops;
        rafIds := rafIds c |}, w).
Proof.
  induction ops as [|op ops IH]; intros c w Hv Hops.
  - destruct c as [v pend ids]. cbn in *. subst v. now rewrite app_nil_r.
  - cbn [forallb] in Hops. apply andb_true_iff in Hops as [Hop Hops].
    change (run (op :: ops) (c, w)) with (run ops (step (c, w) op)).
    rewrite (AnimFacts.scheduled_cons op ops).
    destruct op as [cb|v|]; [| |discriminate Hop]; cbn [step fst snd].
    + unfold visibilityAwareRAF. rewrite Hv.
      rewrite IH by (try reflexivity; exact Hops). cbn.
      now rewrite <- app_assoc.
    + destruct v; [discriminate Hop|]. unfold setVisible. cbn [andb].
      rewrite IH by (try reflexivity; exact Hops). cbn. reflexivity.
Qed.

(** X4. The value [-1] that [visibilityAwareRAF] returns for a queued
    callback cannot be mistaken for a handle: when the browser's handles
    are positive, as they are, the call returns [-1] exactly when the
    controller is hidden, and a positive fresh handle otherwise. *)
Theorem minus_one_means_queued cb c w :
  0 <= lastHandle w ->
  (fst (fst (visibilityAwareRAF cb c w)) = -1 <-> isVisible c = false) /\
  (isVisible c = true ->
   fst (fst (visibilityAwareRAF cb c w)) = lastHandle w + 1 /\
   0 < fst (fst (visibilityAwareRAF cb c w))) /\
  0 <= lastHandle (snd (visibilityAwareRAF cb c w)).
Proof.
  intros Hw. unfold visibilityAwareRAF. destruct (isVisible c); cbn.
  - split; [split; [lia|discriminate]|]. split; [intros _; lia|lia].
  - split; [split; reflexivity|]. split; [discriminate|exact Hw].
Qed.

(** X5. [setVisible] is idempotent: repeating the call with the same flag
    changes neither the controller nor the browser; in particular the
    callbacks replayed by [setVisible(true)] are not requested twice. *)
Theorem setVisible_is_idempotent (v : bool) c w :
  setVisible v (fst (setVisible v c w)) (snd (setVisible v c w))
    = setVisible v c w.
Proof.
  unfold setVisible at 2 3 4. cbn [isVisible pendingCallbacks rafIds].
  destruct (v && _) eqn:Hb.
  - apply andb_true_iff in Hb as [-> _].
    edestruct (AnimFacts.forEach_RAF_visible (pendingCallbacks c))
      as (ids & _ & ->); [reflexivity|].
    reflexivity.
  - cbn [fst snd]. unfold setVisible. cbn [isVisible pendingCallbacks rafIds].
    now rewrite Hb.
Qed.

(** X6. [cleanup] does not retire the controller. It leaves the visibility
    flag as it is and a second [cleanup] does nothing, but a callback
    scheduled afterwards is handled as on any controller: on a visible one
    a new frame is requested whose handle has not been cancelled and is the
    only one recorded; on a hidden one the callback is queued. *)
Theorem cleanup_does_not_retire cb c w :
  (forall id, In id (cancelLog w) \/ In id (rafIds c) -> id <= lastHandle w) ->
  isVisible (fst (cleanup c w)) = isVisible c /\
  cleanup (fst (cleanup c w)) (snd (cleanup c w)) = cleanup c w /\
  if isVisible c then
    visibilityAwareRAF cb (fst (cleanup c w)) (snd (cleanup c w)) =
      (lastHandle w + 1,
       {| isVisible := true; pendingCallbacks := [];
          rafIds := [lastHandle w + 1] |},
       {| lastHandle := lastHandle w + 1;
          rafLog := rafLog w ++ [(lastHandle w + 1, cb)];
          cancelLog := cancelLog w ++ rafIds c |}) /\
    ~ In (lastHandle w + 1) (cancelLog w ++ rafIds c)
  else
    visibilityAwareRAF cb (fst (cleanup c w)) (snd (cleanup c w)) =
      (-1,
       {| isVisible := false; pendingCallbacks := [cb]; rafIds := [] |},
       snd (cleanup c w)).
Proof.
  intros Hfresh. rewrite !AnimFacts.cleanup_eq. cbn [fst snd isVisible rafIds].
  split; [reflexivity|]. split; [cbn; now rewrite app_nil_r|].
  unfold visibilityAwareRAF. cbn. destruct (isVisible c); [|reflexivity].
  split; [reflexivity|]. intros Hin. apply in_app_or in Hin.
  assert (lastHandle w + 1 <= lastHandle w) by (apply Hfresh; tauto). lia.
Qed.

End Facts.

(** X1 on a concrete run across two hide/show cycles. *)
Lemma callbacks_are_conserved_witness :
  let ops := [Schedule "a"; SetVisible false; Schedule "b"; Schedule "c";
              SetVisible true; Schedule "d"; SetVisible false; Schedule "e"] in
  let w0 : Browser string := {| lastHandle := 0; rafLog := []; cancelLog := [] |} in
  forwarded (snd (run ops (createAnimationController, w0)))
    ++ pendingCallbacks (fst (run ops (createAnimationController, w0)))
    = forwarded w0 ++ scheduled ops /\
  (isVisible (fst (run ops (createAnimationController, w0))) = true ->
   pendingCallbacks (fst (run ops (createAnimationController, w0))) = []) /\
  cancelLog (snd (run ops (createAnimationController, w0))) = cancelLog w0.
Proof.
  intros ops w0. exact (callbacks_are_conserved ops w0 eq_refl).
Defined.

(** X3 on a concrete hidden controller. *)
Lemma hidden_controller_is_silent_witness :
  let c := {| isVisible := false; pendingCallbacks := ["a"]; rafIds := [4] |} in
  let w := {| lastHandle := 4; rafLog := [(4, "z")]; cancelLog := [] |} in
  let ops := [Schedule "b"; SetVisible false; Schedule "c"] in
  run ops (c, w) =
    ({| isVisible := false;
        pendingCallbacks := pendingCallbacks c ++ scheduled ops;
        rafIds := rafIds c |}, w).
Proof.
  intros c w ops. exact (hidden_controller_is_silent ops c w eq_refl eq_refl).
Defined.

(** X4 on a browser that has given out three handles. *)
Lemma minus_one_means_queued_witness :
  let c := {| isVisible := true; pendingCallbacks := []; rafIds := [3] |} in
  let w := {| lastHandle := 3; rafLog := [(3, "z")]; cancelLog := [] |} in
  fst (fst (visibilityAwareRAF "a" c w)) = 4.
Proof.
  intros c w.
  exact (proj1 (proj1 (proj2 (minus_one_means_queued "a" c w ltac:(cbn; lia)))
                      eq_refl)).
Defined.

(** X6 on a controller with two recorded handles and one cancelled before. *)
Lemma cleanup_does_not_retire_witness :
  let c : Controller string :=
    {| isVisible := true; pendingCallbacks := []; rafIds := [2; 3] |} in
  let w := {| lastHandle := 3; rafLog := [(1, "y"); (2, "z"); (3, "z")];
              cancelLog := [1] |} in
  ~ In 4 (cancelLog w ++ rafIds c).
Proof.
  intros c w.
  assert (Hfresh : forall id, In id (cancelLog w) \/ In id (rafIds c) ->
                              id <= lastHandle w).
  { cbn. intros id [[<-|[]]|[<-|[<-|[]]]]; lia. }
  pose proof (cleanup_does_not_retire "a" c w Hfresh) as (_ & _ & Hlate).
  cbn [isVisible c] in Hlate. exact (proj2 Hlate).
Defined.

End AnimMore.

(* ===================================================================== *)
(** ** Further properties of the wrapper *)
(* ===================================================================== *)

Module WrapperMore.
Import Wrapper.

Section Facts.

Context {TToolInput CallToolResult : Type}.
Implicit Types (s : State TToolInput CallToolResult).
Implicit Types (e : Event TToolInput CallToolResult).
Implicit Types (events later : list (Event TToolInput CallToolResult)).

(** X7. Host-context-change events compose: two of them in a row leave
    the state that a single event with the merged properties (the later
    event winning on common ones) would leave, and a repeated event changes
    nothing. *)
Theorem host_context_changes_compose s (p1 p2 : HostContext) :
  handle (handle s (HostContextChanged p1)) (HostContextChanged p2)
    = handle s (HostContextChanged (p2 ∪ p1)) /\
  handle (handle s (HostContextChanged p1)) (HostContextChanged p1)
    = handle s (HostContextChanged p1).
Proof.
  cbn. unfold onhostcontextchanged. cbn. split; f_equal; f_equal.
  - now rewrite (assoc_L (∪)).
  - now rewrite (assoc_L (∪)), (idemp_L (∪)).
Qed.

(** X8. Change events never remove a property of the host context: a
    property present in the stored context is still present after any
    further events, unless the connection effect replaces the context. *)
Theorem host_context_properties_persist later :
  forall s (m : HostContext) (k : string),
  hostContext s = Some m ->
  is_Some (m !! k) ->
  existsb is_connected later = false ->
  exists m' : HostContext,
    hostContext (run later s) = Some m' /\ is_Some (m' !! k).
Proof.
  induction later as [|e later IH]; intros s m k Hs Hk Hno.
  - exists m. now split.
  - cbn in Hno. apply orb_false_iff in Hno as [He Hno].
    change (run (e :: later) s) with (run later (handle s e)).
    destruct e as [a|a|r|params|ctx]; try discriminate He;
      try (apply (IH _ m k); [exact Hs|exact Hk|exact Hno]).
    apply (IH _ (params ∪ spread (hostContext s)) k); [reflexivity| |exact Hno].
    apply lookup_union_is_Some. right. now rewrite Hs.
Qed.

Lemma partialArguments_cons e events :
  partialArguments (e :: events)
    = match e with ToolInputPartial a => [a] | _ => [] end
      ++ partialArguments events.
Proof. reflexivity. Qed.

Lemma run_partial_stream events :
  forall s,
  existsb is_complete events = false ->
  toolInputs (run events s) = toolInputs s /\
  toolInputsPartial (run events s)
    = match last (partialArguments events) with
      | Some a => a
      | None => toolInputsPartial s
      end.
Proof.
  induction events as [|e events IH]; intros s Hno; [split; reflexivity|].
  cbn in Hno. apply orb_false_iff in Hno as [He Hno].
  change (run (e :: events) s) with (run events (handle s e)).
  destruct (IH (handle s e) Hno) as [Hc Hp].
  rewrite Hc, Hp, partialArguments_cons, last_app.
  destruct e as [a|a|r|params|[ctx|]]; try discriminate He; cbn;
    (split; [reflexivity|]); destruct (last (partialArguments events));
    reflexivity.
Qed.

(** X9. While no complete event arrives, the reducer tracks the latest
    partial event: the complete value is untouched and the partial value is
    what the last partial event of the stream carried, [null] when it
    carried no arguments (the previous partial value when the stream has no
    partial event), whatever other events are interleaved. *)
Theorem streaming_tracks_latest_partial events s :
  existsb is_complete events = false ->
  toolInputs (run events s) = toolInputs s /\
  toolInputsPartial (run events s)
    = match last (partialArguments events) with
      | Some a => a
      | None => toolInputsPartial s
      end.
Proof.
  intros Hno. destruct (run_partial_stream events s Hno) as [Hc Hp].
  split; [exact Hc|exact Hp].
Qed.

Lemma results_cons e events :
  results (e :: events)
    = match e with ToolResult r => [r] | _ => [] end ++ results events.
Proof. reflexivity. Qed.

Lemma run_toolResult events :
  forall s,
  toolResult (run events s)
    = match last (results events) with
      | Some r => Some r
      | None => toolResult s
      end.
Proof.
  induction events as [|e events IH]; intros s; [reflexivity|].
  change (run (e :: events) s) with (run events (handle s e)).
  rewrite IH, results_cons, last_app.
  destruct e as [a|a|r|params|[ctx|]]; cbn;
    destruct (last (results events)); reflexivity.
Qed.

(** Two states that agree on everything but the tool result. *)
Lemma run_without_results events :
  forall s s',
  toolInputs s = toolInputs s' ->
  toolInputsPartial s = toolInputsPartial s' ->
  hostContext s = hostContext s' ->
  toolInputs (run events s)
    = toolInputs (run (filter (fun e => negb (is_result e)) events) s') /\
  toolInputsPartial (run events s)
    = toolInputsPartial (run (filter (fun e => negb (is_result e)) events) s') /\
  hostContext (run events s)
    = hostContext (run (filter (fun e => negb (is_result e)) events) s').
Proof.
  induction events as [|e events IH]; intros s s' H1 H2 H3; [now repeat split|].
  change (run (e :: events) s) with (run events (handle s e)).
  destruct e as [a|a|r|params|[ctx|]]; cbn [filter is_result negb];
    try (change (run (?e :: ?l) s') with (run l (handle s' e)));
    apply IH; cbn; congruence.
Qed.

(** X10. The tool result is independent of the input stream: after any
    events the stored result is that of the last tool-result event (the
    previous one when there was none), and taking the tool-result events
    out of the stream changes neither the complete input, nor the partial
    input, nor the host context. *)
Theorem tool_result_is_independent events s :
  toolResult (run events s)
    = match last (results events) with
      | Some r => Some r
      | None => toolResult s
      end /\
  toolInputs (run events s)
    = toolInputs (run (filter (fun e => negb (is_result e)) events) s) /\
  toolInputsPartial (run events s)
    = toolInputsPartial (run (filter (fun e => negb (is_result e)) events) s) /\
  hostContext (run events s)
    = hostContext (run (filter (fun e => negb (is_result e)) events) s).
Proof.
  split; [apply run_toolResult|]. now apply run_without_results.
Qed.

End Facts.

(** X8 on a concrete stream: the theme survives two later change events. *)
Lemma host_context_properties_persist_witness :
  let s : State string nat :=
    handle initial (HostContextChanged {[ "theme" := JStr "dark" ]}) in
  exists m' : HostContext,
    hostContext
      (run [HostContextChanged {[ "locale" := JStr "fr" ]};
            ToolInputPartial (Some "co");
            HostContextChanged {[ "displayMode" := JStr "inline" ]}] s)
      = Some m' /\
    is_Some (m' !! "theme").
Proof.
  intros s.
  refine (host_context_properties_persist
            [HostContextChanged {[ "locale" := JStr "fr" ]};
             ToolInputPartial (Some "co");
             HostContextChanged {[ "displayMode" := JStr "inline" ]}] s
            ({[ "theme" := JStr "dark" ]} ∪ ∅) "theme" eq_refl _ eq_refl).
  apply lookup_union_is_Some. left. rewrite lookup_singleton_eq. now exists (JStr "dark").
Defined.

(** X9 on a concrete stream: three partial events around a tool result. *)
Lemma streaming_tracks_latest_partial_witness :
  let events : list (Event string nat) :=
    [ToolInputPartial (Some "c"); ToolInputPartial (Some "co"); ToolResult 1%nat;
     ToolInputPartial (Some "cod")] in
  toolInputs (run events initial) = None /\
  toolInputsPartial (run events initial) = Some "cod".
Proof.
  intros events.
  exact (streaming_tracks_latest_partial events initial eq_refl).
Defined.

End WrapperMore.

(* ===================================================================== *)
(** ** Further properties of the view component *)
(* ===================================================================== *)

Module ThreeJSMore.
Import ThreeJS.

Section Facts.

Context {App CallToolResult Callback : Type}.
Implicit Types (p : ThreeJSAppProps App CallToolResult).
Implicit Types (st : State Callback) (w : Anim.Browser Callback).
Implicit Types (requested : list Callback).

Lemma sceneEffect_frame (c : string) (h : Z) (r1 r2 : bool) requested st w :
  currentDisplayMode (fst (sceneEffect c h r1 r2 requested st w))
    = currentDisplayMode st /\
  displayModeDeps (fst (sceneEffect c h r1 r2 requested st w))
    = displayModeDeps st.
Proof.
  unfold sceneEffect. destruct (negb (truthy c) || negb r1 || negb r2);
    [split; reflexivity|].
  destruct (ThreeJSFacts.cleanupCurrent_frame st w) as (_ & Hm & Hd & _).
  destruct (cleanupCurrent st w) as [st1 w1].
  destruct (executeThreeCode requested _ w1). cbn in *. now split.
Qed.

Lemma syncDisplayMode_mode p st :
  modeKnown st -> modeKnown (syncDisplayMode p st).
Proof.
  intros Hk. unfold syncDisplayMode, modeKnown.
  destruct (displayModeOf (Props.hostContext p)) as [m|]; [|exact Hk].
  destruct (String.eqb m "inline") eqn:Hi; cbn [orb].
  - apply String.eqb_eq in Hi. subst m. now left.
  - destruct (String.eqb m "fullscreen") eqn:Hf; [|exact Hk].
    apply String.eqb_eq in Hf. subst m. now right.
Qed.

Lemma syncDisplayMode_deps p st :
  displayModeDeps (syncDisplayMode p st)
    = Some (displayModeOf (Props.hostContext p)).
Proof.
  unfold syncDisplayMode. destruct (displayModeOf (Props.hostContext p)) as [m|];
    [destruct (String.eqb m "inline" || String.eqb m "fullscreen")|];
    reflexivity.
Qed.

Lemma commit_mode_value p requested st w :
  currentDisplayMode (fst (commit p requested st w))
    = currentDisplayMode
        (if negb (bool_decide (displayModeDeps st =
                     Some (displayModeOf (Props.hostContext p))))
         then syncDisplayMode p st else st).
Proof.
  unfold commit.
  set (b := negb (bool_decide (displayModeDeps st = _))).
  assert (H1 : forall st1,
            currentDisplayMode st1 = currentDisplayMode st ->
            currentDisplayMode (if b then syncDisplayMode p st1 else st1)
              = currentDisplayMode (if b then syncDisplayMode p st else st)).
  { intros st1 H. destruct b; [|exact H]. unfold syncDisplayMode.
    destruct (displayModeOf (Props.hostContext p)) as [m|]; [|exact H].
    destruct (String.eqb m "inline" || String.eqb m "fullscreen");
      [reflexivity|exact H]. }
  assert (H0 : currentDisplayMode
                 (fst (if negb (bool_decide (sceneDeps st = Some (codeOf p, heightOf p)))
                          && sceneCleanup st
                       then cleanupCurrent st w else (st, w)))
               = currentDisplayMode st).
  { destruct (_ && _); [|reflexivity].
    apply (ThreeJSFacts.cleanupCurrent_frame st w). }
  destruct (if _ && sceneCleanup st then cleanupCurrent st w else (st, w))
    as [st1 w1]. cbn [fst] in H0.
  destruct (negb (bool_decide (sceneDeps st = _))); [|now apply H1].
  rewrite (proj1 (sceneEffect_frame _ _ _ _ _ _ w1)). now apply H1.
Qed.

Lemma commit_mode p requested st w :
  modeKnown st -> modeKnown (fst (commit p requested st w)).
Proof.
  intros Hk. unfold modeKnown. rewrite commit_mode_value.
  destruct (negb _); [now apply syncDisplayMode_mode|exact Hk].
Qed.

Lemma toggleFullscreen_mode (wasFullscreen : bool) response st :
  modeKnown st -> modeKnown (toggleFullscreen wasFullscreen response st).
Proof.
  intros Hk. unfold toggleFullscreen. destruct response as [m|]; [|exact Hk].
  destruct (String.eqb m (newMode wasFullscreen)) eqn:Hm; [|exact Hk].
  apply String.eqb_eq in Hm. subst m. unfold modeKnown. cbn.
  destruct wasFullscreen; [now left|now right].
Qed.

(** X11. The stored display mode is always "inline" or "fullscreen":
    whatever the host context carries as [displayMode] (say "pip") and
    whatever the host answers to a display-mode request, no run of events
    stores another mode. *)
Theorem display_mode_stays_known
    (evs : list (Event App CallToolResult Callback)) w0 :
  modeKnown (fst (run evs (initial, w0))).
Proof.
  assert (Hgen : forall sw : State Callback * Anim.Browser Callback,
            modeKnown (fst sw) -> modeKnown (fst (run evs sw))).
  { induction evs as [|ev evs IH]; intros sw Hk; [exact Hk|].
    change (run (ev :: evs) sw) with (run evs (handle sw ev)).
    apply IH. destruct sw as [st w]. cbn [fst snd] in *.
    destruct ev as [p requested|scene cb|b|e|wasFullscreen response];
      cbn [handle fst snd].
    - now apply commit_mode.
    - unfold sceneRAF. destruct (earlierControllers st !! scene) as [c|].
      + destruct (Anim.visibilityAwareRAF cb c w) as [[r c'] w']. exact Hk.
      + destruct (animControllerRef st) as [c|]; [|exact Hk].
        destruct (Nat.eqb scene _); [|exact Hk].
        destruct (Anim.visibilityAwareRAF cb c w) as [[r c'] w']. exact Hk.
    - unfold intersection. destruct (animControllerRef st) as [c|]; [|exact Hk].
      destruct (Anim.setVisible b c w) as [c' w']. exact Hk.
    - exact Hk.
    - now apply toggleFullscreen_mode. }
  apply Hgen. now left.
Qed.

Lemma commit_displayModeDeps p requested st w :
  displayModeDeps (fst (commit p requested st w))
    = Some (displayModeOf (Props.hostContext p)).
Proof.
  unfold commit.
  assert (H1 : displayModeDeps
                 (fst (if negb (bool_decide (sceneDeps st = Some (codeOf p, heightOf p)))
                          && sceneCleanup st
                       then cleanupCurrent st w else (st, w)))
               = displayModeDeps st).
  { destruct (_ && _); [|reflexivity].
    apply (ThreeJSFacts.cleanupCurrent_frame st w). }
  destruct (if _ && sceneCleanup st then cleanupCurrent st w else (st, w))
    as [st1 w1]. cbn [fst] in H1.
  assert (H2 : displayModeDeps
                 (if negb (bool_decide (displayModeDeps st =
                              Some (displayModeOf (Props.hostContext p))))
                  then syncDisplayMode p st1 else st1)
               = Some (displayModeOf (Props.hostContext p))).
  { case_bool_decide as Hd; cbn [negb]; [congruence|apply syncDisplayMode_deps]. }
  destruct (negb (bool_decide (sceneDeps st = _))); [|exact H2].
  now rewrite (proj2 (sceneEffect_frame _ _ _ _ _ _ w1)).
Qed.

Lemma commit_nothing_changed p requested st w :
  sceneDeps st = Some (codeOf p, heightOf p) ->
  displayModeDeps st = Some (displayModeOf (Props.hostContext p)) ->
  commit p requested st w = (st, w).
Proof.
  intros Hs Hd. unfold commit.
  rewrite (bool_decide_eq_true_2 _ Hs), (bool_decide_eq_true_2 _ Hd).
  reflexivity.
Qed.

(** X12. Committing the same props again is a no-op: no effect is re-run
    and the scene code is not executed again, so the state and the browser
    stay exactly as the first commit left them. Re-renders caused by the
    component's own state changes therefore neither restart nor cancel
    anything. *)
Theorem commit_is_idempotent p requested (again : list Callback) st w :
  commit p again (fst (commit p requested st w)) (snd (commit p requested st w))
    = commit p requested st w.
Proof.
  rewrite (commit_nothing_changed p again (fst (commit p requested st w))
             (snd (commit p requested st w))).
  - now destruct (commit p requested st w).
  - apply ThreeJSFacts.commit_sceneDeps.
  - apply commit_displayModeDeps.
Qed.

(** X13. A commit that changes neither code nor height leaves the scene
    alone, whatever else changed in the props (host context, partial
    input): the scene code is not executed, the browser is untouched, and
    controller, error and effect state are as before. *)
Theorem rerender_leaves_scene_running p requested st w :
  sceneDeps st = Some (codeOf p, heightOf p) ->
  snd (commit p requested st w) = w /\
  animControllerRef (fst (commit p requested st w)) = animControllerRef st /\
  error (fst (commit p requested st w)) = error st /\
  sceneCleanup (fst (commit p requested st w)) = sceneCleanup st /\
  sceneDeps (fst (commit p requested st w)) = sceneDeps st.
Proof.
  intros Hs. unfold commit. rewrite (bool_decide_eq_true_2 _ Hs).
  cbn [negb andb fst snd]. split; [reflexivity|].
  destruct (negb _); [|repeat split].
  destruct (ThreeJSFacts.syncDisplayMode_frame p st) as (He & Hr & Hd & Hc & _).
  now repeat split.
Qed.


(** X15. A scene that the effect skipped is not started later by an input
    with the same code and height. If the component mounts while input is
    streaming, and the complete input then carries no code of its own (so
    the default demo code) and the height seen while streaming, the canvas
    is rendered but no controller is installed and nothing is executed. *)
Theorem skipped_scene_is_not_started
    (p_streaming p_complete : ThreeJSAppProps App CallToolResult)
    (requested requested' : list Callback) w :
  isStreaming p_streaming = true ->
  isStreaming p_complete = false ->
  codeOf p_complete = DEFAULT_THREEJS_CODE ->
  heightOf p_complete = heightOf p_streaming ->
  let mounted := commit p_streaming requested (@initial Callback) w in
  let completed := commit p_complete requested' (fst mounted) (snd mounted) in
  (exists scene,
     ThreeJSApp p_complete (fst completed)
       = Canvas (containerStyle p_complete) scene) /\
  animControllerRef (fst completed) = None /\
  sceneCleanup (fst completed) = false /\
  snd completed = w.
Proof.
  intros Hs Hc Hcode Hheight mounted completed.
  assert (Hd : sceneDeps (fst mounted)
               = Some (codeOf p_streaming, heightOf p_streaming))
    by apply ThreeJSFacts.commit_sceneDeps.
  destruct (ThreeJSFacts.commit_skips_scene p_streaming requested initial w
              ltac:(discriminate) Hs) as (Hw & Hr & _ & _ & Hcl).
  fold mounted in Hw, Hr, Hcl. cbn in Hw, Hr.
  assert (Hstream_code : codeOf p_streaming = DEFAULT_THREEJS_CODE).
  { unfold codeOf. unfold isStreaming in Hs.
    destruct (Props.toolInputs p_streaming); [discriminate Hs|reflexivity]. }
  assert (Hsame : sceneDeps (fst mounted)
                  = Some (codeOf p_complete, heightOf p_complete))
    by (rewrite Hd; congruence).
  destruct (ThreeJSFacts.commit_keeps_scene p_complete requested'
              (fst mounted) (snd mounted) Hsame) as (Hw2 & Hr2 & _ & Hcl2 & _).
  split; [eexists; apply (ThreeJSFacts.render_canvas _ _ Hc)|].
  unfold completed. rewrite Hr2, Hcl2, Hw2. now repeat split.
Qed.

(** X16. The Escape key only ever leaves fullscreen. Whatever key is
    pressed, whatever the host answers and whatever happened in between,
    the exchange either changes nothing or stores "inline"; a key other
    than Escape, or Escape outside fullscreen, changes nothing; Escape in
    fullscreen confirmed by the host stores "inline". *)
Theorem escape_only_exits_fullscreen (key : string) st
    (response : DisplayModeResponse) (st' : State Callback) :
  (keyDownAnswered key st response st' = st' \/
   currentDisplayMode (keyDownAnswered key st response st') = "inline"%string) /\
  (key <> "Escape"%string \/ isFullscreen st = false ->
   keyDownAnswered key st response st' = st') /\
  (key = "Escape"%string -> isFullscreen st = true ->
   response = Resolved "inline" ->
   currentDisplayMode (keyDownAnswered key st response st') = "inline"%string).
Proof.
  unfold keyDownAnswered, onKeyDown.
  destruct (String.eqb key "Escape") eqn:Hkey; cbn [andb].
  - apply String.eqb_eq in Hkey. destruct (isFullscreen st) eqn:Hfs.
    + unfold toggleFullscreen. cbn [newMode]. split; [|split].
      * destruct response as [m|]; [|now left].
        destruct (String.eqb m "inline") eqn:Hm; [|now left].
        apply String.eqb_eq in Hm. subst m. now right.
      * intros [Hne|Hf]; [contradiction|discriminate].
      * intros _ _ ->. reflexivity.
    + split; [now left|]. split; [reflexivity|discriminate].
  - apply String.eqb_neq in Hkey. split; [now left|].
    split; [reflexivity|]. intros He. contradiction.
Qed.

(** X17. Two clicks on the fullscreen button, each confirmed by the host,
    bring the component back to the state it was in: the first changes the
    mode, the second restores it, and nothing else is touched. *)
Theorem two_confirmed_clicks_restore st :
  modeKnown st ->
  let st1 := clickAnswered st (Resolved (newMode (isFullscreen st))) st in
  currentDisplayMode st1 <> currentDisplayMode st /\
  clickAnswered st1 (Resolved (newMode (isFullscreen st1))) st1 = st.
Proof.
  intros Hk. destruct st as [e m c dd sd sc ec]. unfold modeKnown in Hk. cbn in Hk.
  destruct Hk as [-> | ->]; cbn; split; (discriminate || reflexivity).
Qed.

(** X18. The fullscreen button is marked available exactly when the host
    context has an [availableDisplayModes] array that contains
    "fullscreen"; without a host context, without that property, or with
    an array that lacks it, the button is not marked. *)
Theorem fullscreen_offered_iff_host_lists_it p st :
  (canFullscreen p = true <->
   exists (m : HostContext) (items : list JsValue),
     Props.hostContext p = Some m /\
     m !! "availableDisplayModes"%string = Some (JArr items) /\
     In (JStr "fullscreen") items) /\
  (isStreaming p = false ->
   exists scene,
     ThreeJSApp p st = Canvas (containerStyle p) scene /\
     buttonClassName scene
       = if canFullscreen p then "fullscreen-btn available"%string
         else "fullscreen-btn"%string).
Proof.
  split.
  - unfold canFullscreen, contextProp. split.
    + destruct (Props.hostContext p) as [m|]; [|discriminate].
      destruct (m !! "availableDisplayModes"%string) as [v|] eqn:Hv;
        [|discriminate].
      destruct v as [| | | | |items|]; try discriminate.
      intros Hin. apply existsb_exists in Hin as (x & Hx & Hfx).
      exists m, items. split; [reflexivity|]. split; [exact Hv|].
      destruct x as [| | | |t| |]; try discriminate Hfx.
      apply String.eqb_eq in Hfx. now subst t.
    + intros (m & items & -> & -> & Hin). apply existsb_exists.
      exists (JStr "fullscreen"). split; [exact Hin|reflexivity].
  - intros Hs. eexists. split; [apply (ThreeJSFacts.render_canvas p st Hs)|].
    cbn. now destruct (canFullscreen p).
Qed.

(** X19. The guard [!code] is dead: the code to execute is never the empty
    string, so the view is the streaming preview exactly while input is
    streaming, the refs are attached exactly otherwise, and with the refs
    attached the scene effect always starts a scene, on a fresh controller
    that records the handles of what the code requests at once. *)
Theorem preview_exactly_while_streaming p requested st w :
  truthy (codeOf p) = true /\
  refsAttached (ThreeJSApp p st) = negb (isStreaming p) /\
  (isStreaming p = true ->
   ThreeJSApp p st
     = Streaming (containerStyle p) (LoadingShimmer (heightOf p) (partialCode p))) /\
  (sceneCleanup
     (fst (sceneEffect (codeOf p) (heightOf p) true true requested st w)) = true /\
   exists ids,
     length ids = length requested /\
     animControllerRef
       (fst (sceneEffect (codeOf p) (heightOf p) true true requested st w))
       = Some {| Anim.isVisible := true; Anim.pendingCallbacks := [];
                 Anim.rafIds := ids |}).
Proof.
  split; [apply ThreeJSFacts.codeOf_truthy|]. split; [|split].
  - destruct (isStreaming p) eqn:Hs.
    + unfold ThreeJSApp. now rewrite Hs.
    + now rewrite (ThreeJSFacts.render_canvas p st Hs).
  - intros Hs. unfold ThreeJSApp. now rewrite Hs.
  - unfold sceneEffect. rewrite ThreeJSFacts.codeOf_truthy. cbn [negb orb].
    destruct (cleanupCurrent st w) as [st1 w1].
    destruct (ThreeJSFacts.executeThreeCode_fresh requested w1)
      as (ids & Hlen & ->).
    split; [reflexivity|]. exists ids. now split.
Qed.

Lemma setVisible_conserves (v : bool) (c : Anim.Controller Callback) w :
  Anim.isVisible (fst (Anim.setVisible v c w)) = v /\
  Anim.forwarded (snd (Anim.setVisible v c w))
    ++ Anim.pendingCallbacks (fst (Anim.setVisible v c w))
    = Anim.forwarded w ++ Anim.pendingCallbacks c /\
  Anim.cancelLog (snd (Anim.setVisible v c w)) = Anim.cancelLog w.
Proof.
  unfold Anim.setVisible.
  cbn [Anim.isVisible Anim.pendingCallbacks Anim.rafIds].
  destruct (v && _) eqn:Hb.
  - apply andb_true_iff in Hb as [-> _].
    edestruct (AnimFacts.forEach_RAF_visible (Anim.pendingCallbacks c))
      as (ids & Hids & ->); [reflexivity|].
    cbn. unfold Anim.forwarded. cbn.
    rewrite map_app, (AnimFacts.combine_snd _ ids Hids), app_nil_r.
    now repeat split.
  - cbn. now repeat split.
Qed.

Lemma observerCallback_cons (b : bool) (entries : list bool) st w :
  observerCallback (b :: entries) st w
    = observerCallback entries (fst (intersection b st w))
                               (snd (intersection b st w)).
Proof.
  unfold observerCallback. cbn [fold_left fst snd].
  now destruct (intersection b st w).
Qed.

(** X20. A batch of intersection entries leaves the controller in the ref
    with the visibility of the last entry (unchanged when the batch is
    empty), whatever the entries before it; no callback is lost on the way
    (requested followed by queued callbacks are the same sequence as
    before) and no frame is cancelled. *)
Theorem observer_batch_ends_on_last_entry (entries : list bool) :
  forall st w (c : Anim.Controller Callback),
  animControllerRef st = Some c ->
  exists c',
    animControllerRef (fst (observerCallback entries st w)) = Some c' /\
    Anim.isVisible c'
      = match last entries with Some b => b | None => Anim.isVisible c end /\
    Anim.forwarded (snd (observerCallback entries st w)) ++ Anim.pendingCallbacks c'
      = Anim.forwarded w ++ Anim.pendingCallbacks c /\
    Anim.cancelLog (snd (observerCallback entries st w)) = Anim.cancelLog w /\
    error (fst (observerCallback entries st w)) = error st.
Proof.
  induction entries as [|b entries IH]; intros st w c Hc.
  - exists c. cbn. now repeat split.
  - rewrite observerCallback_cons.
    destruct (setVisible_conserves b c w) as (Hv & Hfifo & Hcan).
    assert (Hstep : animControllerRef (fst (intersection b st w))
                      = Some (fst (Anim.setVisible b c w)) /\
                    snd (intersection b st w) = snd (Anim.setVisible b c w) /\
                    error (fst (intersection b st w)) = error st).
    { unfold intersection. rewrite Hc.
      destruct (Anim.setVisible b c w). now repeat split. }
    destruct Hstep as (Hr & Hw & He).
    destruct (IH _ (snd (intersection b st w)) _ Hr)
      as (c' & Hr' & Hv' & Hfifo' & Hcan' & He').
    exists c'. split; [exact Hr'|]. rewrite last_cons.
    split; [rewrite Hv', Hv; now destruct (last entries)|].
    split; [rewrite Hfifo', Hw; exact Hfifo|].
    split; [rewrite Hcan', Hw; exact Hcan|]. now rewrite He'.
Qed.

(** X21. Through wrapper and view: the props the connected wrapper passes
    carry what the latest complete event carried, and when that event
    carried arguments the streaming preview is not shown: after a complete
    tool input, later partial events cannot bring the preview back, only a
    complete event without arguments can. *)
Theorem no_preview_after_complete
    (s : Wrapper.State ThreeJSToolInput CallToolResult)
    (a : option ThreeJSToolInput)
    (later : list (Wrapper.Event ThreeJSToolInput CallToolResult))
    (app : App) st :
  is_Some (Wrapper.lastComplete a later) ->
  exists props,
    Wrapper.McpAppWrapper (Some app) None
      (Wrapper.run later (Wrapper.handle s (Wrapper.ToolInput a)))
      = Wrapper.View props /\
    Props.toolInputs props = Wrapper.lastComplete a later /\
    isStreaming props = false /\
    exists scene, ThreeJSApp props st = Canvas (containerStyle props) scene.
Proof.
  intros [x Hx]. eexists. split; [reflexivity|].
  assert (Hti : Wrapper.toolInputs
                  (Wrapper.run later (Wrapper.handle s (Wrapper.ToolInput a)))
                = Wrapper.lastComplete a later)
    by (now apply WrapperFacts.run_toolInputs).
  assert (Hs : forall pr : ThreeJSAppProps App CallToolResult,
            Props.toolInputs pr
              = Wrapper.toolInputs
                  (Wrapper.run later (Wrapper.handle s (Wrapper.ToolInput a))) ->
            isStreaming pr = false).
  { intros pr Hpr. unfold isStreaming. now rewrite Hpr, Hti, Hx. }
  split; [exact Hti|]. split; [now apply Hs|].
  eexists. apply ThreeJSFacts.render_canvas. now apply Hs.
Qed.

(** X22. Through wrapper and view: while no complete event has arrived the
    connected wrapper shows what the latest partial event calls for. When
    that event carried arguments it is the streaming preview with their
    code and height, 400 when they name none. When it carried none, or no
    partial event has arrived, it is the canvas at height 400. *)
Theorem preview_follows_latest_partial
    (events : list (Wrapper.Event ThreeJSToolInput CallToolResult))
    (app : App) st :
  existsb Wrapper.is_complete events = false ->
  exists props,
    Wrapper.McpAppWrapper (Some app) None (Wrapper.run events Wrapper.initial)
      = Wrapper.View props /\
    match last (Wrapper.partialArguments events) with
    | Some (Some a) =>
        ThreeJSApp props st
          = Streaming (containerStyle props)
              (LoadingShimmer (match height a with Some h => h | None => 400 end)
                              (code a))
    | _ =>
        exists scene,
          ThreeJSApp props st = Canvas (containerStyle props) scene /\
          canvasHeight scene = 400
    end.
Proof.
  intros Hno.
  destruct (WrapperMore.run_partial_stream events Wrapper.initial Hno)
    as [Hc Hp]. cbn in Hc.
  eexists. split; [reflexivity|].
  assert (Hcanvas :
    forall pr : ThreeJSAppProps App CallToolResult,
      Props.toolInputs pr = None -> Props.toolInputsPartial pr = None ->
      exists scene,
        ThreeJSApp pr st = Canvas (containerStyle pr) scene /\
        canvasHeight scene = 400).
  { intros pr H1 H2.
    assert (Hs : isStreaming pr = false) by (unfold isStreaming; now rewrite H1, H2).
    eexists. split; [apply (ThreeJSFacts.render_canvas pr st Hs)|].
    cbn. unfold heightOf. now rewrite H1, H2. }
  destruct (last (Wrapper.partialArguments events)) as [[a|]|].
  - unfold ThreeJSApp, isStreaming, heightOf, partialCode.
    cbn [Props.toolInputs Props.toolInputsPartial].
    rewrite Hc, Hp. reflexivity.
  - apply Hcanvas; [exact Hc|exact Hp].
  - apply Hcanvas; [exact Hc|exact Hp].
Qed.

Lemma sceneRAF_current (cb : Callback) st w (c : Anim.Controller Callback) :
  animControllerRef st = Some c ->
  Anim.isVisible c = true ->
  snd (sceneRAF (currentScene st) cb st w)
    = snd (Anim.requestAnimationFrame cb w) /\
  animControllerRef (fst (sceneRAF (currentScene st) cb st w))
    = Some {| Anim.isVisible := true;
              Anim.pendingCallbacks := Anim.pendingCallbacks c;
              Anim.rafIds := Anim.rafIds c ++ [Anim.lastHandle w + 1] |}.
Proof.
  intros Hc Hv. unfold sceneRAF, currentScene.
  rewrite (lookup_ge_None_2 (earlierControllers st)) by lia.
  rewrite Hc, Nat.eqb_refl. unfold Anim.visibilityAwareRAF. rewrite Hv.
  cbn. now split.
Qed.

(** X23. The visibility flag is not carried over to a new scene. When
    code or height changes while the canvas is rendered and the controller
    in the ref is hidden, the controller installed for the new scene is
    visible: the frames the new scene requests, at once or later, go to the
    browser immediately, although the view was last reported out of
    sight. *)
Theorem new_scene_starts_visible p requested st w (c : Anim.Controller Callback)
    (cb : Callback) :
  animControllerRef st = Some c ->
  Anim.isVisible c = false ->
  sceneDeps st <> Some (codeOf p, heightOf p) ->
  isStreaming p = false ->
  exists ids,
    length ids = length requested /\
    animControllerRef (fst (commit p requested st w))
      = Some {| Anim.isVisible := true; Anim.pendingCallbacks := [];
                Anim.rafIds := ids |} /\
    Anim.forwarded (snd (commit p requested st w))
      = Anim.forwarded w ++ requested /\
    Anim.lastHandle (snd (commit p requested st w))
      = Anim.lastHandle w + Z.of_nat (length requested) /\
    Anim.forwarded
      (snd (sceneRAF (currentScene (fst (commit p requested st w))) cb
                     (fst (commit p requested st w))
                     (snd (commit p requested st w))))
      = Anim.forwarded w ++ requested ++ [cb] /\
    animControllerRef
      (fst (sceneRAF (currentScene (fst (commit p requested st w))) cb
                     (fst (commit p requested st w))
                     (snd (commit p requested st w))))
      = Some {| Anim.isVisible := true; Anim.pendingCallbacks := [];
                Anim.rafIds :=
                  ids ++ [Anim.lastHandle (snd (commit p requested st w)) + 1] |}.
Proof.
  intros Hc _ Hdeps Hs.
  destruct (ThreeJSFacts.commit_replaces_scene p requested st w Hdeps Hs)
    as (ids & Hlen & Hr & Hlog & _).
  assert (Hfwd : Anim.forwarded (snd (commit p requested st w))
                 = Anim.forwarded w ++ requested).
  { unfold Anim.forwarded. rewrite Hlog, map_app.
    now rewrite (AnimFacts.combine_snd _ ids Hlen). }
  assert (Hlast : Anim.lastHandle (snd (commit p requested st w))
                  = Anim.lastHandle w + Z.of_nat (length requested)).
  { rewrite (proj1 (ThreeJSFacts.commit_runs_scene p requested st w Hdeps Hs)).
    destruct (ThreeJSFacts.executeThreeCode_fresh requested
                (snd (cleanupCurrent st w))) as (ids' & _ & ->).
    rewrite (ThreeJSFacts.cleanupCurrent_some st w c Hc), AnimFacts.cleanup_eq.
    reflexivity. }
  destruct (sceneRAF_current cb _ (snd (commit p requested st w)) _ Hr eq_refl)
    as [Hw2 Hr2].
  exists ids. split; [exact Hlen|]. split; [exact Hr|]. split; [exact Hfwd|].
  split; [exact Hlast|]. split; [|exact Hr2]. rewrite Hw2. unfold Anim.forwarded in *. cbn.
  now rewrite map_app, Hfwd, <- app_assoc.
Qed.

End Facts.

(** X13 on concrete props: the running scene of ["spin()"] and a commit
    that adds a partial input with other code. *)
Lemma rerender_leaves_scene_running_witness :
  let complete := {| code := Some "spin()"; height := Some 300 |} in
  let mounted :=
    commit (propsOf (Some complete) None) ["spin"] (@initial string) emptyBrowser in
  let p := propsOf (Some complete) (Some {| code := Some "x"; height := Some 10 |}) in
  snd (commit p ["spin"] (fst mounted) (snd mounted)) = snd mounted /\
  animControllerRef (fst (commit p ["spin"] (fst mounted) (snd mounted)))
    = animControllerRef (fst mounted) /\
  error (fst (commit p ["spin"] (fst mounted) (snd mounted))) = error (fst mounted) /\
  sceneCleanup (fst (commit p ["spin"] (fst mounted) (snd mounted)))
    = sceneCleanup (fst mounted) /\
  sceneDeps (fst (commit p ["spin"] (fst mounted) (snd mounted)))
    = sceneDeps (fst mounted).
Proof.
  intros complete mounted p.
  exact (rerender_leaves_scene_running p ["spin"] (fst mounted) (snd mounted)
           eq_refl).
Defined.

(** X15 on concrete props: a partial input of height 500 at mount, then a
    complete input of the same height without code. *)
Lemma skipped_scene_is_not_started_witness :
  let p_streaming := propsOf None (Some {| code := None; height := Some 500 |}) in
  let p_complete := propsOf (Some {| code := None; height := Some 500 |}) None in
  let mounted := commit p_streaming ["spin"] (@initial string) emptyBrowser in
  let completed := commit p_complete ["spin"] (fst mounted) (snd mounted) in
  (exists scene,
     ThreeJSApp p_complete (fst completed)
       = Canvas (containerStyle p_complete) scene) /\
  animControllerRef (fst completed) = None /\
  sceneCleanup (fst completed) = false /\
  snd completed = emptyBrowser.
Proof.
  intros p_streaming p_complete.
  exact (skipped_scene_is_not_started p_streaming p_complete ["spin"] ["spin"]
           emptyBrowser eq_refl eq_refl eq_refl eq_refl).
Defined.

(** X16 on a concrete exchange: Escape in fullscreen, confirmed. *)
Lemma escape_only_exits_fullscreen_witness :
  let st := toggleFullscreen false (Resolved "fullscreen") (@initial string) in
  currentDisplayMode (keyDownAnswered "Escape" st (Resolved "inline") st) = "inline"%string.
Proof.
  intros st.
  exact (proj2 (proj2 (escape_only_exits_fullscreen
                         "Escape" st (Resolved "inline") st))
               eq_refl eq_refl eq_refl).
Defined.

(** X17 on the initial state. *)
Lemma two_confirmed_clicks_restore_witness :
  let st := @initial string in
  let st1 := clickAnswered st (Resolved (newMode (isFullscreen st))) st in
  currentDisplayMode st1 <> currentDisplayMode st /\
  clickAnswered st1 (Resolved (newMode (isFullscreen st1))) st1 = st.
Proof.
  intros st. exact (two_confirmed_clicks_restore st (or_introl eq_refl)).
Defined.

(** X20 on a concrete batch: hidden, shown, hidden. *)
Lemma observer_batch_ends_on_last_entry_witness :
  let c := {| Anim.isVisible := true; Anim.pendingCallbacks := [];
              Anim.rafIds := [1] |} in
  let st := {| error := None; currentDisplayMode := "inline";
               animControllerRef := Some c; displayModeDeps := Some None;
               sceneDeps := Some ("spin()", 400); sceneCleanup := true;
               earlierControllers := [] |} in
  let w := {| Anim.lastHandle := 1; Anim.rafLog := [(1, "spin")];
              Anim.cancelLog := [] |} in
  exists c',
    animControllerRef (fst (observerCallback [false; true; false] st w)) = Some c' /\
    Anim.isVisible c' = false.
Proof.
  intros c st w.
  destruct (observer_batch_ends_on_last_entry [false; true; false] st w c eq_refl)
    as (c' & Hr & Hv & _).
  exists c'. split; [exact Hr|exact Hv].
Defined.

(** X21 on a concrete stream: complete, partial, complete, partial. *)
Lemma no_preview_after_complete_witness :
  let first := {| code := Some "spin()"; height := None |} in
  let second := {| code := Some "orbit()"; height := Some 300 |} in
  let later : list (Wrapper.Event ThreeJSToolInput unit) :=
    [Wrapper.ToolInputPartial (Some {| code := Some "or"; height := None |});
     Wrapper.ToolInput (Some second);
     Wrapper.ToolInputPartial (Some {| code := Some "x"; height := None |})] in
  exists props,
    Wrapper.McpAppWrapper (Some tt) None
      (Wrapper.run later (Wrapper.handle Wrapper.initial
                            (Wrapper.ToolInput (Some first))))
      = Wrapper.View props /\
    Props.toolInputs props = Some second /\
    isStreaming props = false /\
    exists scene,
      ThreeJSApp props (@initial string) = Canvas (containerStyle props) scene.
Proof.
  intros first second later.
  exact (no_preview_after_complete Wrapper.initial (Some first) later tt initial
           (ex_intro _ second eq_refl)).
Defined.

(** X22 on a concrete stream of two partial events. *)
Lemma preview_follows_latest_partial_witness :
  let events : list (Wrapper.Event ThreeJSToolInput unit) :=
    [Wrapper.ToolInputPartial (Some {| code := Some "const s"; height := None |});
     Wrapper.ToolInputPartial
       (Some {| code := Some "const scene"; height := Some 300 |})] in
  exists props,
    Wrapper.McpAppWrapper (Some tt) None (Wrapper.run events Wrapper.initial)
      = Wrapper.View props /\
    ThreeJSApp props (@initial string)
      = Streaming (containerStyle props)
          (LoadingShimmer 300 (Some "const scene"%string)).
Proof.
  intros events.
  exact (preview_follows_latest_partial events tt initial eq_refl).
Defined.

(** X18 on a host context that offers inline and fullscreen. *)
Lemma fullscreen_offered_iff_host_lists_it_witness :
  let p : ThreeJSAppProps unit unit :=
    {| Props.app := tt; Props.toolInputs := None;
       Props.toolInputsPartial := None; Props.toolResult := None;
       Props.hostContext :=
         Some {[ "availableDisplayModes"%string :=
                   JArr [JStr "inline"; JStr "fullscreen"] ]} |} in
  canFullscreen p = true /\
  exists scene,
    ThreeJSApp p (@initial string) = Canvas (containerStyle p) scene /\
    buttonClassName scene = "fullscreen-btn available"%string.
Proof.
  intros p.
  pose proof (fullscreen_offered_iff_host_lists_it p (@initial string))
    as [Hiff Hrender].
  assert (Hcan : canFullscreen p = true).
  { apply Hiff. eexists _, _. split; [reflexivity|].
    split; [apply lookup_singleton_eq|]. right. now left. }
  split; [exact Hcan|].
  destruct (Hrender eq_refl) as (scene & Hscene & Hclass).
  exists scene. split; [exact Hscene|]. rewrite Hclass, Hcan. reflexivity.
Defined.

(** X19 on streaming props. *)
Lemma preview_exactly_while_streaming_witness :
  let p := propsOf None (Some {| code := Some "const s"; height := None |}) in
  ThreeJSApp p (@initial string)
    = Streaming (containerStyle p) (LoadingShimmer 400 (Some "const s"%string)).
Proof.
  intros p.
  exact (proj1 (proj2 (proj2 (preview_exactly_while_streaming
                                p ["spin"] (@initial string) emptyBrowser)))
               eq_refl).
Defined.

(** X23 on a concrete run: the default scene is hidden, then other code
    arrives, requests a frame at once and another one later. *)
Lemma new_scene_starts_visible_witness :
  let sw := run [Render (propsOf None None) ["spin"]; Intersection false]
                (@initial string, emptyBrowser) in
  let p := propsOf (Some {| code := Some "other()"; height := None |}) None in
  exists ids : list Z,
    length ids = 1%nat /\
    Anim.forwarded
      (snd (sceneRAF (currentScene (fst (commit p ["orbit"] (fst sw) (snd sw))))
                     "later"
                     (fst (commit p ["orbit"] (fst sw) (snd sw)))
                     (snd (commit p ["orbit"] (fst sw) (snd sw)))))
      = ["spin"; "orbit"; "later"]%string.
Proof.
  intros sw p.
  destruct (new_scene_starts_visible p ["orbit"] (fst sw) (snd sw)
              {| Anim.isVisible := false; Anim.pendingCallbacks := [];
                 Anim.rafIds := [1] |}
              "later" eq_refl eq_refl
              ltac:(vm_compute; discriminate) eq_refl)
    as (ids & Hlen & _ & _ & _ & Hfwd & _).
  exists ids. split; [exact Hlen|exact Hfwd].
Defined.

End ThreeJSMore.
